(** * Architecture builders of [src/models/models.py]

    The module defines three functions, [dcnn_binary], [dcnn_multiclass] and
    [dcnn_multiclass_resnet].  Each one reads hyperparameters from a
    configuration dictionary, evaluates three size expressions with Python's
    [eval], describes a network to Keras layer by layer and compiles it.

    The embedding keeps what the functions themselves decide: which layer
    constructors are called, with which arguments, in which order, how the
    tensors of the functional model are wired, and what is handed to
    [compile].  Keras objects are records of the arguments they were built
    from.  A keyword the source never passes to a constructor has no field; a
    keyword it passes on some calls only is an [option] field, [None] where
    it is left out; [bias_initializer], which the source passes with a value
    that can be Python's [None], is a [kwarg] field.

    What Keras does with those arguments (shape inference, argument
    validation, weight creation) is library code and is not modelled, with
    one exception: the size of the last axis of a feature map, which
    [channels] computes by the rule of each layer type.  [model.summary()]
    prints and leaves the model as it is; it raises on a Sequential model
    that was never given an input shape, and that is kept.  So a call raises,
    in this embedding, when one of its three [eval]s does or when
    [summary] does; the other errors Keras can raise are not modelled, and a
    statement about a returned model is a statement about the calls that
    return.

    Python integers are [Z], Python floats are binary64 [float]s, the output
    bias is whatever Python value the caller passes, the
    [for i in range(n)] loops are folds over [range n], and the Sequential
    model that [model.add] mutates is threaded through explicitly. *)

From Stdlib Require Import ZArith List String Ascii Bool Floats Lia.
Import ListNotations.
Local Open Scope string_scope.
Local Open Scope list_scope.
Local Open Scope Z_scope.

(** ** Python values and exceptions *)

(** The values a configuration string can evaluate to. *)
#[warnings="-register-all"] Inductive pyval : Type :=
| PyNone
| PyInt (z : Z)
| PyFloat (f : float)
| PyStr (s : string)
| PyTuple (items : list pyval)
| PyList (items : list pyval).

(** The exceptions of the embedding: [eval] rejecting its argument, with the
    offending source text, and the [ValueError] with which Keras refuses to
    summarise a model that has not been built. *)
Inductive exn : Type :=
| EvalError (source : string)
| ValueError.

Inductive result (A : Type) : Type :=
| Ok (a : A)
| Raise (e : exn).
Arguments Ok {A} a.
Arguments Raise {A} e.

Definition bind {A B : Type} (c : result A) (k : A -> result B) : result B :=
  match c with
  | Ok a => k a
  | Raise e => Raise e
  end.

Notation "x <- c ;; k" := (bind c (fun x => k))
  (at level 61, c at next level, right associativity).

(** [range(n)] for an integer [n]: empty when [n <= 0]. *)
Definition range (n : Z) : list Z := map Z.of_nat (seq 0 (Z.to_nat n)).

(** ** Keras vocabulary used by the module *)

(** A tensor shape as the caller passes it: a tuple of integers. *)
Definition shape : Type := list Z.

Inductive Initializer : Type :=
| he_uniform
| Constant (value : pyval).

Inductive Regularizer : Type :=
| l2 (l : float).

Inductive Activation : Type :=
| sigmoid
| softmax.

Inductive Padding : Type :=
| valid
| same.

Inductive Loss : Type :=
| binary_crossentropy
| categorical_crossentropy.

Inductive Optimizer : Type :=
| Adam (learning_rate : float)
| SGD (learning_rate : float).

(** A keyword argument that the source passes on one call and leaves out on
    another: [Omitted] is the keyword not written, [Passed v] is [kw=v]. *)
Inductive kwarg (A : Type) : Type :=
| Omitted
| Passed (a : A).
Arguments Omitted {A}.
Arguments Passed {A} a.

(** [Conv2D(filters, kernel_size, strides=, padding=, kernel_initializer=,
    activity_regularizer=, input_shape=)]. *)
Record Conv2D_args : Type := mkConv2D {
  conv_filters : Z;
  conv_kernel_size : pyval;
  conv_strides : pyval;
  conv_padding : Padding;
  conv_kernel_initializer : Initializer;
  conv_activity_regularizer : Regularizer;
  conv_input_shape : option shape
}.

(** [Dense(units, activation=, kernel_initializer=, bias_initializer=,
    activity_regularizer=, name=)].  [bias_initializer] is the one keyword
    that is passed with a value that may itself be [None]. *)
Record Dense_args : Type := mkDense {
  dense_units : Z;
  dense_activation : option Activation;
  dense_kernel_initializer : option Initializer;
  dense_bias_initializer : kwarg (option Initializer);
  dense_activity_regularizer : option Regularizer;
  dense_name : option string
}.

Inductive Layer : Type :=
| Conv2D (a : Conv2D_args)
| BatchNormalization
| LeakyReLU
| MaxPool2D (pool_size : pyval) (padding : Padding)
| Flatten
| Dropout (rate : float)
| Dense (a : Dense_args).

(** Symbolic tensors of the functional API.  [X = layer(X)] is [Call];
    [concatenate([a, b])] is [Concatenate a b].  A Python variable that is
    used twice ([X_res]) is the same term in both places. *)
Inductive KTensor : Type :=
| Input (s : shape)
| Call (l : Layer) (x : KTensor)
| Concatenate (a b : KTensor).

(** The configuration dictionary, with the ten keys the functions read and
    the types [config.yml] gives them. *)
Record ModelConfig : Type := mkConfig {
  NODES_DENSE0 : Z;
  LR : float;
  DROPOUT : float;
  L2_LAMBDA : float;
  INIT_FILTERS : Z;
  FILTER_EXP_BASE : Z;
  CONV_BLOCKS : Z;
  KERNEL_SIZE : string;
  MAXPOOL_SIZE : string;
  STRIDES : string
}.

(** ** Models *)

Section Models.

(** Metrics are opaque to the module: whatever the caller supplies. *)
Variable metric : Type.

(** What [model.compile(loss=, optimizer=, metrics=)] stores. *)
Record CompileArgs : Type := mkCompile {
  compile_loss : Loss;
  compile_optimizer : Optimizer;
  compile_metrics : list metric
}.

(** [Sequential(name=...)]: a named stack of layers, compiled or not. *)
Record Sequential : Type := mkSequential {
  seq_name : string;
  seq_layers : list Layer;
  seq_compiled : option CompileArgs
}.

Definition Sequential_new (name : string) : Sequential :=
  mkSequential name [] None.

(** [model.add(layer)] *)
Definition add (model : Sequential) (layer : Layer) : Sequential :=
  mkSequential (seq_name model) (seq_layers model ++ [layer]) (seq_compiled model).

(** [model.compile(loss=, optimizer=, metrics=)] *)
Definition compile (model : Sequential) (loss : Loss) (optimizer : Optimizer)
    (metrics : list metric) : Sequential :=
  mkSequential (seq_name model) (seq_layers model)
               (Some (mkCompile loss optimizer metrics)).

(** A Sequential model is built, that is, knows the shape of its input, when
    the layer added first was given one.  In this module only [Conv2D] is
    ever given an input shape. *)
Definition seq_built (model : Sequential) : bool :=
  match seq_layers model with
  | Conv2D c :: _ =>
      match conv_input_shape c with
      | Some _ => true
      | None => false
      end
  | _ => false
  end.

(** [model.summary()] prints the architecture and changes nothing; Keras
    raises [ValueError] when the model has not been built. *)
Definition summary (model : Sequential) : result unit :=
  if seq_built model then Ok tt else Raise ValueError.

(** [Model(inputs=, outputs=)]: a functional model, compiled or not. *)
Record Model : Type := mkModel {
  model_inputs : KTensor;
  model_outputs : KTensor;
  model_compiled : option CompileArgs
}.

Definition Model_compile (model : Model) (loss : Loss) (optimizer : Optimizer)
    (metrics : list metric) : Model :=
  mkModel (model_inputs model) (model_outputs model)
          (Some (mkCompile loss optimizer metrics)).

(** [model.summary()] on a functional model, which is built from its [Input]
    tensor when it is created. *)
Definition Model_summary (model : Model) : result unit := Ok tt.

End Models.

Arguments mkCompile {metric} _ _ _.
Arguments compile_loss {metric} _.
Arguments compile_optimizer {metric} _.
Arguments compile_metrics {metric} _.
Arguments mkSequential {metric} _ _ _.
Arguments seq_name {metric} _.
Arguments seq_layers {metric} _.
Arguments seq_compiled {metric} _.
Arguments Sequential_new {metric} _.
Arguments add {metric} _ _.
Arguments compile {metric} _ _ _ _.
Arguments seq_built {metric} _.
Arguments summary {metric} _.
Arguments mkModel {metric} _ _ _.
Arguments model_inputs {metric} _.
Arguments model_outputs {metric} _.
Arguments model_compiled {metric} _.
Arguments Model_compile {metric} _ _ _ _.
Arguments Model_summary {metric} _.

(** ** The three builders *)

Section Builders.

Variable metric : Type.

(** Python's builtin [eval] as one call of a builder uses it, restricted to
    its result: [None] when it raises.  [eval] runs in the scope of the call,
    so an expression may read the call's arguments and locals; [eval] here
    stands for the evaluation inside one call, and a statement about two
    calls takes one such function per call. *)
Variable eval : string -> option pyval.

Definition py_eval (source : string) : result pyval :=
  match eval source with
  | Some v => Ok v
  | None => Raise (EvalError source)
  end.

(** The first of the three size expressions, in the order the functions
    evaluate them, that [eval] rejects. *)
Definition first_rejected (cfg : ModelConfig) : option string :=
  match eval (KERNEL_SIZE cfg), eval (MAXPOOL_SIZE cfg), eval (STRIDES cfg) with
  | None, _, _ => Some (KERNEL_SIZE cfg)
  | Some _, None, _ => Some (MAXPOOL_SIZE cfg)
  | Some _, Some _, None => Some (STRIDES cfg)
  | Some _, Some _, Some _ => None
  end.

(** Body of the loop of [dcnn_binary] (lines 36-45). *)
Definition binary_block (init_filters filter_exp_base : Z)
    (kernel_size strides max_pool_size : pyval) (l2_lambda : float)
    (input_shape : shape) (model : Sequential metric) (i : Z) : Sequential metric :=
  let model :=
    if i =? 0 then
      add model (Conv2D (mkConv2D init_filters kernel_size strides same he_uniform
                                  (l2 l2_lambda) (Some input_shape)))
    else
      add model (Conv2D (mkConv2D (init_filters * (filter_exp_base ^ i)) kernel_size
                                  strides same he_uniform (l2 l2_lambda) None)) in
  let model := add model BatchNormalization in
  let model := add model LeakyReLU in
  add model (MaxPool2D max_pool_size same).

Definition dcnn_binary (model_config : ModelConfig) (input_shape : shape)
    (metrics : list metric) (output_bias : option pyval)
    : result (Sequential metric) :=
  let nodes_dense0 := NODES_DENSE0 model_config in
  let lr := LR model_config in
  let dropout := DROPOUT model_config in
  let l2_lambda := L2_LAMBDA model_config in
  let optimizer := Adam lr in
  let init_filters := INIT_FILTERS model_config in
  let filter_exp_base := FILTER_EXP_BASE model_config in
  let conv_blocks := CONV_BLOCKS model_config in
  kernel_size <- py_eval (KERNEL_SIZE model_config) ;;
  max_pool_size <- py_eval (MAXPOOL_SIZE model_config) ;;
  strides <- py_eval (STRIDES model_config) ;;
  let output_bias :=
    match output_bias with
    | Some b => Some (Constant b)
    | None => None
    end in
  let model := Sequential_new "covid-19-cxr-custom1" in
  let model :=
    fold_left (binary_block init_filters filter_exp_base kernel_size strides
                            max_pool_size l2_lambda input_shape)
              (range conv_blocks) model in
  let model := add model Flatten in
  let model := add model (Dropout dropout) in
  let model := add model (Dense (mkDense nodes_dense0 None (Some he_uniform) Omitted
                                         (Some (l2 l2_lambda)) None)) in
  let model := add model LeakyReLU in
  let model := add model (Dense (mkDense 1 (Some sigmoid) None (Passed output_bias)
                                         None (Some "output"))) in
  let model := compile model binary_crossentropy optimizer metrics in
  _ <- summary model ;;
  Ok model.

(** Body of the loop of [dcnn_multiclass] (lines 86-95).  In the first
    iteration the second positional argument of [Conv2D] is
    [filter_exp_base ** i]. *)
Definition multiclass_block (init_filters filter_exp_base : Z)
    (kernel_size strides max_pool_size : pyval) (l2_lambda : float)
    (input_shape : shape) (model : Sequential metric) (i : Z) : Sequential metric :=
  let model :=
    if i =? 0 then
      add model (Conv2D (mkConv2D init_filters (PyInt (filter_exp_base ^ i)) strides same
                                  he_uniform (l2 l2_lambda) (Some input_shape)))
    else
      add model (Conv2D (mkConv2D (init_filters * (filter_exp_base ^ i)) kernel_size
                                  strides same he_uniform (l2 l2_lambda) None)) in
  let model := add model BatchNormalization in
  let model := add model LeakyReLU in
  add model (MaxPool2D max_pool_size same).

Definition dcnn_multiclass (model_config : ModelConfig) (input_shape : shape)
    (num_classes : Z) (metrics : list metric) : result (Sequential metric) :=
  let nodes_dense0 := NODES_DENSE0 model_config in
  let lr := LR model_config in
  let dropout := DROPOUT model_config in
  let l2_lambda := L2_LAMBDA model_config in
  let optimizer := Adam lr in
  let init_filters := INIT_FILTERS model_config in
  let filter_exp_base := FILTER_EXP_BASE model_config in
  let conv_blocks := CONV_BLOCKS model_config in
  kernel_size <- py_eval (KERNEL_SIZE model_config) ;;
  max_pool_size <- py_eval (MAXPOOL_SIZE model_config) ;;
  strides <- py_eval (STRIDES model_config) ;;
  let model := Sequential_new "covid-19-cxr-custom1" in
  let model :=
    fold_left (multiclass_block init_filters filter_exp_base kernel_size strides
                                max_pool_size l2_lambda input_shape)
              (range conv_blocks) model in
  let model := add model Flatten in
  let model := add model (Dropout dropout) in
  let model := add model (Dense (mkDense nodes_dense0 None (Some he_uniform) Omitted
                                         (Some (l2 l2_lambda)) None)) in
  let model := add model (Dropout dropout) in
  let model := add model LeakyReLU in
  let model := add model (Dense (mkDense num_classes (Some softmax) None Omitted
                                         None (Some "output"))) in
  let model := compile model categorical_crossentropy optimizer metrics in
  _ <- summary model ;;
  Ok model.

(** Body of the loop of [dcnn_multiclass_resnet] (lines 138-149). *)
Definition resnet_block (init_filters filter_exp_base : Z)
    (kernel_size strides max_pool_size : pyval) (l2_lambda : float)
    (X : KTensor) (i : Z) : KTensor :=
  let X_res := X in
  let X := Call (Conv2D (mkConv2D (init_filters * (filter_exp_base ^ i)) kernel_size
                                  strides same he_uniform (l2 l2_lambda) None)) X in
  let X := Call BatchNormalization X in
  let X := Call LeakyReLU X in
  let X := Call (Conv2D (mkConv2D (init_filters * (filter_exp_base ^ i)) kernel_size
                                  strides same he_uniform (l2 l2_lambda) None)) X in
  let X := Concatenate X X_res in
  let X := Call BatchNormalization X in
  let X := Call LeakyReLU X in
  Call (MaxPool2D max_pool_size same) X.

Definition dcnn_multiclass_resnet (model_config : ModelConfig) (input_shape : shape)
    (num_classes : Z) (metrics : list metric) : result (Model metric) :=
  let nodes_dense0 := NODES_DENSE0 model_config in
  let lr := LR model_config in
  let dropout := DROPOUT model_config in
  let l2_lambda := L2_LAMBDA model_config in
  let optimizer := Adam lr in
  let init_filters := INIT_FILTERS model_config in
  let filter_exp_base := FILTER_EXP_BASE model_config in
  let conv_blocks := CONV_BLOCKS model_config in
  kernel_size <- py_eval (KERNEL_SIZE model_config) ;;
  max_pool_size <- py_eval (MAXPOOL_SIZE model_config) ;;
  strides <- py_eval (STRIDES model_config) ;;
  let X_input := Input input_shape in
  let X := X_input in
  let X :=
    fold_left (resnet_block init_filters filter_exp_base kernel_size strides
                            max_pool_size l2_lambda)
              (range conv_blocks) X in
  let X := Call Flatten X in
  let X := Call (Dropout dropout) X in
  let X := Call (Dense (mkDense nodes_dense0 None (Some he_uniform) Omitted
                                (Some (l2 l2_lambda)) None)) X in
  let X := Call LeakyReLU X in
  let Y := Call (Dense (mkDense num_classes (Some softmax) None Omitted
                                None (Some "output"))) X in
  let model := mkModel X_input Y None in
  let model := Model_compile model categorical_crossentropy optimizer metrics in
  _ <- Model_summary model ;;
  Ok model.

End Builders.

Arguments py_eval eval source : simpl never.

(** The tensor [X] of [dcnn_multiclass_resnet] after the first [k] iterations
    of its loop. *)
Definition resnet_trunk (init_filters filter_exp_base : Z)
    (kernel_size strides max_pool_size : pyval) (l2_lambda : float)
    (input_shape : shape) (k : nat) : KTensor :=
  fold_left (resnet_block init_filters filter_exp_base kernel_size strides
                          max_pool_size l2_lambda)
            (range (Z.of_nat k)) (Input input_shape).

(** ** Reading a built model back

    The functions below take a finished layer stack or tensor graph apart
    again.  They know nothing about the builders: the theorems state what
    they find in the models the builders return. *)

(** The layer added last. *)
Fixpoint last_layer (layers : list Layer) : option Layer :=
  match layers with
  | [] => None
  | [l] => Some l
  | _ :: rest => last_layer rest
  end.

(** One convolutional stage of a Sequential model: a convolution, a batch
    normalisation, a leaky ReLU and a max pooling, in this order. *)
Record ConvStage : Type := mkStage {
  stage_conv : Conv2D_args;
  stage_pool_size : pyval;
  stage_pool_padding : Padding
}.

(** Peels the convolutional stages off the front of a layer stack and returns
    them with the layers that follow. *)
Fixpoint split_stages (layers : list Layer) : list ConvStage * list Layer :=
  match layers with
  | Conv2D c :: BatchNormalization :: LeakyReLU :: MaxPool2D p pad :: rest =>
      let (stages, head) := split_stages rest in
      (mkStage c p pad :: stages, head)
  | _ => ([], layers)
  end.

(** The four layers of a stage, as a stack. *)
Definition stage_layers (st : ConvStage) : list Layer :=
  [Conv2D (stage_conv st); BatchNormalization; LeakyReLU;
   MaxPool2D (stage_pool_size st) (stage_pool_padding st)].

(** The dense head of the two Sequential builders starts at [Flatten] and
    holds no convolution and no pooling. *)
Definition is_conv_or_pool (l : Layer) : bool :=
  match l with
  | Conv2D _ | MaxPool2D _ _ => true
  | _ => false
  end.

(** The layer that produced a tensor. *)
Definition producer (t : KTensor) : option Layer :=
  match t with
  | Call l _ => Some l
  | _ => None
  end.

(** The tensor that enters the head [Flatten, Dropout, Dense, LeakyReLU,
    Dense] of a functional model, if the model ends in such a head. *)
Definition head_input (t : KTensor) : option KTensor :=
  match t with
  | Call (Dense _) (Call LeakyReLU (Call (Dense _) (Call (Dropout _) (Call Flatten x)))) =>
      Some x
  | _ => None
  end.

(** One residual block as found in a graph: the pooled tensor is
    [MaxPool2D(LeakyReLU(BatchNormalization(Concatenate t s)))] with
    [t = Conv2D(LeakyReLU(BatchNormalization(Conv2D(x))))]. *)
Record ResBlock : Type := mkResBlock {
  res_branch_input : KTensor;   (* x: what the first convolution is applied to *)
  res_conv1 : Conv2D_args;
  res_conv2 : Conv2D_args;
  res_transformed : KTensor;    (* t: first operand of the concatenation *)
  res_shortcut : KTensor;       (* s: second operand of the concatenation *)
  res_pre_pool : KTensor;       (* the tensor the pooling layer is applied to *)
  res_pool_size : pyval;
  res_pool_padding : Padding
}.

(** Walks from a tensor back to the input along the shortcuts and returns the
    residual blocks met, first block first. *)
Fixpoint res_blocks (t : KTensor) : list ResBlock :=
  match t with
  | Call (MaxPool2D p pad)
      (Call LeakyReLU
        (Call BatchNormalization
          (Concatenate
            (Call (Conv2D c2)
              (Call LeakyReLU (Call BatchNormalization (Call (Conv2D c1) x))))
            s))) =>
      res_blocks s ++
      [mkResBlock x c1 c2
         (Call (Conv2D c2) (Call LeakyReLU (Call BatchNormalization (Call (Conv2D c1) x))))
         s
         (Call LeakyReLU
           (Call BatchNormalization
             (Concatenate
               (Call (Conv2D c2)
                 (Call LeakyReLU (Call BatchNormalization (Call (Conv2D c1) x))))
               s)))
         p pad]
  | _ => []
  end.

(** The tensor at which the walk of [res_blocks] stops. *)
Fixpoint res_root (t : KTensor) : KTensor :=
  match t with
  | Call (MaxPool2D _ _)
      (Call LeakyReLU
        (Call BatchNormalization
          (Concatenate
            (Call (Conv2D _)
              (Call LeakyReLU (Call BatchNormalization (Call (Conv2D _) _))))
            s))) => res_root s
  | _ => t
  end.

Definition last_axis (s : shape) : option Z :=
  match rev s with
  | c :: _ => Some c
  | [] => None
  end.

(** Size of the channel axis (the last one) of a feature map: a convolution
    yields one channel per filter, normalisation, activation, pooling and
    dropout keep the channels, a concatenation adds them up.  [Flatten] and
    [Dense] do not produce feature maps. *)
Fixpoint channels (t : KTensor) : option Z :=
  match t with
  | Input s => last_axis s
  | Call (Conv2D c) _ => Some (conv_filters c)
  | Call BatchNormalization x | Call LeakyReLU x
  | Call (MaxPool2D _ _) x | Call (Dropout _) x => channels x
  | Call Flatten _ | Call (Dense _) _ => None
  | Concatenate a b =>
      match channels a, channels b with
      | Some ca, Some cb => Some (ca + cb)
      | _, _ => None
      end
  end.

(** [init_filters * filter_exp_base ** i], the filter count the source
    computes for block [i]. *)
Definition block_filters (init_filters filter_exp_base i : Z) : Z :=
  init_filters * filter_exp_base ^ i.

(** Sum of the filter counts of blocks [0 .. n-1]. *)
Definition filters_before (init_filters filter_exp_base : Z) (n : nat) : Z :=
  fold_right Z.add 0 (map (block_filters init_filters filter_exp_base) (range (Z.of_nat n))).

(** ** An evaluator for size literals

    Python's [eval] is not part of the module: the builders above take it as
    a parameter.  [size_literal] is one instance, enough to run the builders on
    the size expressions of [config.yml]: it reads a decimal integer or a
    parenthesised, comma separated tuple of at least two decimal integers,
    with optional spaces, and rejects everything else. *)

Definition is_digit (c : ascii) : bool :=
  ((48 <=? nat_of_ascii c) && (nat_of_ascii c <=? 57))%nat.

Definition digit_value (c : ascii) : Z := Z.of_nat (nat_of_ascii c - 48).

Fixpoint skip_spaces (s : list ascii) : list ascii :=
  match s with
  | " "%char :: rest => skip_spaces rest
  | _ => s
  end.

Fixpoint read_digits (acc : Z) (s : list ascii) : Z * list ascii :=
  match s with
  | c :: rest => if is_digit c then read_digits (10 * acc + digit_value c) rest else (acc, s)
  | [] => (acc, [])
  end.

(** A decimal integer literal; a leading zero is accepted only in ["0"]. *)
Definition read_int (s : list ascii) : option (Z * list ascii) :=
  match s with
  | "0"%char :: rest =>
      match rest with
      | c :: _ => if is_digit c then None else Some (0, rest)
      | [] => Some (0, rest)
      end
  | c :: _ => if is_digit c then Some (read_digits 0 s) else None
  | [] => None
  end.

(** The items of a tuple after the opening parenthesis, up to and including
    the closing one. *)
Fixpoint read_items (fuel : nat) (s : list ascii) : option (list Z * list ascii) :=
  match fuel with
  | O => None
  | S fuel' =>
      match read_int (skip_spaces s) with
      | None => None
      | Some (z, rest) =>
          match skip_spaces rest with
          | ","%char :: rest' =>
              match read_items fuel' rest' with
              | Some (zs, r) => Some (z :: zs, r)
              | None => None
              end
          | ")"%char :: rest' => Some ([z], rest')
          | _ => None
          end
      end
  end.

Definition size_literal (source : string) : option pyval :=
  match skip_spaces (list_ascii_of_string source) with
  | "("%char :: rest =>
      match read_items (List.length rest) rest with
      | Some (z1 :: z2 :: zs, r) =>
          match skip_spaces r with
          | [] => Some (PyTuple (map PyInt (z1 :: z2 :: zs)))
          | _ => None
          end
      | _ => None
      end
  | s =>
      match read_int s with
      | Some (z, r) =>
          match skip_spaces r with
          | [] => Some (PyInt z)
          | _ => None
          end
      | None => None
      end
  end.

(** The architecture section of [config.yml], with the values the spec's
    worked example uses: 16 initial filters, growth base 2, three blocks. *)
Definition sample_config : ModelConfig :=
  mkConfig 128 0x1p-10%float 0.25%float 0x1p-13%float 16 2 3 "(3,3)" "(2,2)" "(1,1)".

(** The same configuration with no convolutional block. *)
Definition zero_block_config : ModelConfig :=
  mkConfig 128 0x1p-10%float 0.25%float 0x1p-13%float 16 2 0 "(3,3)" "(2,2)" "(1,1)".

(** The same configuration with a kernel size that is not an expression. *)
Definition broken_config : ModelConfig :=
  mkConfig 128 0x1p-10%float 0.25%float 0x1p-13%float 16 2 3 "(3,3" "(2,2)" "(1,1)".

Definition sample_shape : shape := [224; 224; 3].

Definition sample_metrics : list string := ["accuracy"; "auc"].

(** The configuration [cfg] with its block count replaced by [n], as
    [dict(model_config, CONV_BLOCKS=n)] builds it. *)
Definition with_conv_blocks (cfg : ModelConfig) (n : Z) : ModelConfig :=
  mkConfig (NODES_DENSE0 cfg) (LR cfg) (DROPOUT cfg) (L2_LAMBDA cfg) (INIT_FILTERS cfg)
           (FILTER_EXP_BASE cfg) n (KERNEL_SIZE cfg) (MAXPOOL_SIZE cfg) (STRIDES cfg).

(** Two calls evaluate the three size expressions of [cfg] to the same
    results: [eval1] is [eval] inside the first call, [eval2] inside the
    second.  This holds in particular when the expressions are literals. *)
Definition same_sizes (eval1 eval2 : string -> option pyval) (cfg : ModelConfig) : Prop :=
  eval1 (KERNEL_SIZE cfg) = eval2 (KERNEL_SIZE cfg) /\
  eval1 (MAXPOOL_SIZE cfg) = eval2 (MAXPOOL_SIZE cfg) /\
  eval1 (STRIDES cfg) = eval2 (STRIDES cfg).

(** * Properties *)

(** ** [range] and the loops *)

Lemma range_length (n : Z) : List.length (range n) = Z.to_nat n.
Proof. unfold range. now rewrite length_map, length_seq. Qed.


Lemma range_snoc (k : nat) : range (Z.of_nat (S k)) = range (Z.of_nat k) ++ [Z.of_nat k].
Proof.
  unfold range. rewrite !Nat2Z.id, seq_S, map_app. reflexivity.
Qed.

Lemma range_to_nat (n : Z) : range n = range (Z.of_nat (Z.to_nat n)).
Proof. unfold range. now rewrite Nat2Z.id. Qed.

Lemma range_nth (n : Z) (i : nat) :
  (i < Z.to_nat n)%nat -> nth_error (range n) i = Some (Z.of_nat i).
Proof.
  intros Hi. unfold range.
  rewrite nth_error_map, nth_error_seq.
  destruct (Nat.ltb_spec i (Z.to_nat n)); [reflexivity | lia].
Qed.

Lemma range_pos (n : Z) : 0 < n -> exists rest, range n = 0 :: rest.
Proof.
  intros Hn. unfold range. destruct (Z.to_nat n) eqn:E; [lia|].
  eexists. reflexivity.
Qed.

Lemma block_filters_0 (init_filters filter_exp_base : Z) :
  block_filters init_filters filter_exp_base 0 = init_filters.
Proof. unfold block_filters. rewrite Z.pow_0_r. lia. Qed.

(** ** What [split_stages] finds in a stack of stages followed by a head *)

Lemma split_stages_nil (layers : list Layer) :
  fst (split_stages layers) = [] -> split_stages layers = ([], layers).
Proof.
  intros H.
  destruct layers as [|a l1]; [reflexivity|]. destruct a; try reflexivity.
  destruct l1 as [|b l2]; [reflexivity|]. destruct b; try reflexivity.
  destruct l2 as [|c l3]; [reflexivity|]. destruct c; try reflexivity.
  destruct l3 as [|d l4]; [reflexivity|]. destruct d; try reflexivity.
  simpl in H. destruct (split_stages l4). discriminate.
Qed.

Lemma split_stages_app (stages : list ConvStage) (head : list Layer) :
  fst (split_stages head) = [] ->
  split_stages (flat_map stage_layers stages ++ head) = (stages, head).
Proof.
  intros Hhead. induction stages as [|st stages IH].
  - simpl. now apply split_stages_nil.
  - destruct st as [c p pad]. simpl. simpl in IH. rewrite IH. reflexivity.
Qed.

Section SequentialLoops.

Variable metric : Type.

(** A loop whose body appends one stage per index appends the stages of all
    indices, in order, and touches nothing else. *)
Lemma fold_left_stages (blk : Sequential metric -> Z -> Sequential metric)
    (stage : Z -> ConvStage) :
  (forall m i, blk m i =
     mkSequential (seq_name m) (seq_layers m ++ stage_layers (stage i)) (seq_compiled m)) ->
  forall (l : list Z) (m : Sequential metric),
    fold_left blk l m =
    mkSequential (seq_name m)
                 (seq_layers m ++ flat_map stage_layers (map stage l))
                 (seq_compiled m).
Proof.
  intros Hblk l. induction l as [|i l IH]; intros m.
  - simpl. rewrite app_nil_r. now destruct m.
  - simpl fold_left. rewrite IH, Hblk. simpl. now rewrite <- app_assoc.
Qed.

Lemma binary_block_stage (init_filters filter_exp_base : Z)
    (kernel_size strides max_pool_size : pyval) (l2_lambda : float)
    (input_shape : shape) (m : Sequential metric) (i : Z) :
  binary_block metric init_filters filter_exp_base kernel_size strides max_pool_size
               l2_lambda input_shape m i =
  mkSequential (seq_name m)
    (seq_layers m ++
     stage_layers
       (mkStage (mkConv2D (block_filters init_filters filter_exp_base i) kernel_size strides
                          same he_uniform (l2 l2_lambda)
                          (if i =? 0 then Some input_shape else None))
                max_pool_size same))
    (seq_compiled m).
Proof.
  unfold binary_block, add, stage_layers. simpl.
  destruct (Z.eqb_spec i 0) as [->|Hi]; simpl;
    rewrite <- ?app_assoc; simpl; [rewrite block_filters_0|]; reflexivity.
Qed.

Lemma multiclass_block_stage (init_filters filter_exp_base : Z)
    (kernel_size strides max_pool_size : pyval) (l2_lambda : float)
    (input_shape : shape) (m : Sequential metric) (i : Z) :
  multiclass_block metric init_filters filter_exp_base kernel_size strides max_pool_size
                   l2_lambda input_shape m i =
  mkSequential (seq_name m)
    (seq_layers m ++
     stage_layers
       (mkStage (mkConv2D (block_filters init_filters filter_exp_base i)
                          (if i =? 0 then PyInt (filter_exp_base ^ i) else kernel_size)
                          strides same he_uniform (l2 l2_lambda)
                          (if i =? 0 then Some input_shape else None))
                max_pool_size same))
    (seq_compiled m).
Proof.
  unfold multiclass_block, add, stage_layers. simpl.
  destruct (Z.eqb_spec i 0) as [->|Hi]; simpl;
    rewrite <- ?app_assoc; simpl; [rewrite block_filters_0|]; reflexivity.
Qed.

End SequentialLoops.

(** ** The residual loop *)

Section ResidualLoop.

Variables (init_filters filter_exp_base : Z).
Variables (kernel_size strides max_pool_size : pyval).
Variable l2_lambda : float.
Variable input_shape : shape.

#[local] Abbreviation blk :=
  (resnet_block init_filters filter_exp_base kernel_size strides max_pool_size l2_lambda).
#[local] Abbreviation trunk :=
  (resnet_trunk init_filters filter_exp_base kernel_size strides max_pool_size l2_lambda
                input_shape).
#[local] Abbreviation conv i :=
  (mkConv2D (block_filters init_filters filter_exp_base i) kernel_size strides same
            he_uniform (l2 l2_lambda) None).
#[local] Abbreviation transformed_of X i :=
  (Call (Conv2D (conv i)) (Call LeakyReLU (Call BatchNormalization (Call (Conv2D (conv i)) X)))).
#[local] Abbreviation pre_pool_of X i :=
  (Call LeakyReLU (Call BatchNormalization (Concatenate (transformed_of X i) X))).

Lemma resnet_block_eq (X : KTensor) (i : Z) :
  blk X i = Call (MaxPool2D max_pool_size same) (pre_pool_of X i).
Proof. reflexivity. Qed.

Lemma resnet_trunk_S (k : nat) : trunk (S k) = blk (trunk k) (Z.of_nat k).
Proof.
  unfold resnet_trunk. rewrite range_snoc, fold_left_app. reflexivity.
Qed.

Lemma resnet_trunk_range (n : Z) :
  fold_left blk (range n) (Input input_shape) = trunk (Z.to_nat n).
Proof. unfold resnet_trunk. now rewrite <- range_to_nat. Qed.

Lemma res_blocks_block (X : KTensor) (i : Z) :
  res_blocks (blk X i) =
  res_blocks X ++
  [mkResBlock X (conv i) (conv i) (transformed_of X i) X (pre_pool_of X i) max_pool_size
              same].
Proof. reflexivity. Qed.

Lemma res_root_trunk (k : nat) : res_root (trunk k) = Input input_shape.
Proof.
  induction k as [|k IH]; [reflexivity|].
  rewrite resnet_trunk_S, resnet_block_eq. exact IH.
Qed.

Lemma res_blocks_trunk_length (k : nat) : List.length (res_blocks (trunk k)) = k.
Proof.
  induction k as [|k IH]; [reflexivity|].
  rewrite resnet_trunk_S, res_blocks_block, length_app, IH. simpl. lia.
Qed.

(** Block [i] of the trunk is the block the loop built on top of [trunk i]. *)
Lemma res_blocks_trunk_nth (k i : nat) :
  (i < k)%nat ->
  nth_error (res_blocks (trunk k)) i =
  Some (mkResBlock (trunk i) (conv (Z.of_nat i)) (conv (Z.of_nat i))
                   (transformed_of (trunk i) (Z.of_nat i)) (trunk i)
                   (pre_pool_of (trunk i) (Z.of_nat i)) max_pool_size same).
Proof.
  induction k as [|k IH]; intros Hi; [lia|].
  rewrite resnet_trunk_S, res_blocks_block.
  destruct (Nat.eq_dec i k) as [->|Hne].
  - rewrite nth_error_app2; rewrite res_blocks_trunk_length; [|lia].
    rewrite Nat.sub_diag. reflexivity.
  - rewrite nth_error_app1; [|rewrite res_blocks_trunk_length; lia].
    apply IH. lia.
Qed.

Lemma filters_before_S (k : nat) :
  filters_before init_filters filter_exp_base (S k) =
  filters_before init_filters filter_exp_base k
  + block_filters init_filters filter_exp_base (Z.of_nat k).
Proof.
  unfold filters_before. rewrite range_snoc, map_app, fold_right_app. simpl.
  generalize (map (block_filters init_filters filter_exp_base) (range (Z.of_nat k))).
  intros l. induction l as [|a l IH]; simpl; lia.
Qed.

(** Every block adds its filter count to the channels that reach it. *)
Lemma channels_trunk (c : Z) (k : nat) :
  last_axis input_shape = Some c ->
  channels (trunk k) = Some (c + filters_before init_filters filter_exp_base k).
Proof.
  intros Hc. induction k as [|k IH].
  - simpl. rewrite Hc. unfold filters_before. simpl. f_equal. lia.
  - rewrite resnet_trunk_S, resnet_block_eq. simpl. rewrite IH.
    rewrite filters_before_S. f_equal. lia.
Qed.

End ResidualLoop.

(** ** What a successful call returns *)

Section BuilderResults.

Variable metric : Type.
Variable eval : string -> option pyval.

(** A call gets past the three [eval]s exactly when all three succeed. *)
Ltac eval_sizes cfg :=
  unfold py_eval;
  destruct (eval (KERNEL_SIZE cfg)) as [ks|] eqn:Eks; simpl; [|discriminate];
  destruct (eval (MAXPOOL_SIZE cfg)) as [mp|] eqn:Emp; simpl; [|discriminate];
  destruct (eval (STRIDES cfg)) as [st|] eqn:Est; simpl; [|discriminate].

(** A call that returns got past [summary]. *)
Ltac pass_summary :=
  match goal with
  | |- context [summary ?M] =>
      destruct (summary M) as [[]|?]; cbn [bind]; [|discriminate]
  end.

Lemma dcnn_binary_ok (cfg : ModelConfig) (input_shape : shape) (metrics : list metric)
    (output_bias : option pyval) (m : Sequential metric) :
  dcnn_binary metric eval cfg input_shape metrics output_bias = Ok m ->
  exists ks mp st,
    eval (KERNEL_SIZE cfg) = Some ks /\
    eval (MAXPOOL_SIZE cfg) = Some mp /\
    eval (STRIDES cfg) = Some st /\
    m = mkSequential "covid-19-cxr-custom1"
          (flat_map stage_layers
             (map (fun i =>
                     mkStage (mkConv2D (block_filters (INIT_FILTERS cfg) (FILTER_EXP_BASE cfg) i)
                                       ks st same he_uniform (l2 (L2_LAMBDA cfg))
                                       (if i =? 0 then Some input_shape else None))
                             mp same)
                  (range (CONV_BLOCKS cfg)))
           ++ [Flatten; Dropout (DROPOUT cfg);
               Dense (mkDense (NODES_DENSE0 cfg) None (Some he_uniform) Omitted
                              (Some (l2 (L2_LAMBDA cfg))) None);
               LeakyReLU;
               Dense (mkDense 1 (Some sigmoid) None
                              (Passed match output_bias with
                                      | Some b => Some (Constant b)
                                      | None => None
                                      end)
                              None (Some "output"))])
          (Some (mkCompile binary_crossentropy (Adam (LR cfg)) metrics)).
Proof.
  unfold dcnn_binary. eval_sizes cfg. pass_summary. intros H. injection H as <-.
  exists ks, mp, st. repeat split.
  rewrite (fold_left_stages metric _ _ (binary_block_stage metric _ _ _ _ _ _ _)).
  unfold compile, add, Sequential_new. simpl. rewrite <- !app_assoc. reflexivity.
Qed.

Lemma dcnn_multiclass_ok (cfg : ModelConfig) (input_shape : shape) (num_classes : Z)
    (metrics : list metric) (m : Sequential metric) :
  dcnn_multiclass metric eval cfg input_shape num_classes metrics = Ok m ->
  exists ks mp st,
    eval (KERNEL_SIZE cfg) = Some ks /\
    eval (MAXPOOL_SIZE cfg) = Some mp /\
    eval (STRIDES cfg) = Some st /\
    m = mkSequential "covid-19-cxr-custom1"
          (flat_map stage_layers
             (map (fun i =>
                     mkStage (mkConv2D (block_filters (INIT_FILTERS cfg) (FILTER_EXP_BASE cfg) i)
                                       (if i =? 0 then PyInt (FILTER_EXP_BASE cfg ^ i) else ks)
                                       st same he_uniform (l2 (L2_LAMBDA cfg))
                                       (if i =? 0 then Some input_shape else None))
                             mp same)
                  (range (CONV_BLOCKS cfg)))
           ++ [Flatten; Dropout (DROPOUT cfg);
               Dense (mkDense (NODES_DENSE0 cfg) None (Some he_uniform) Omitted
                              (Some (l2 (L2_LAMBDA cfg))) None);
               Dropout (DROPOUT cfg);
               LeakyReLU;
               Dense (mkDense num_classes (Some softmax) None Omitted None (Some "output"))])
          (Some (mkCompile categorical_crossentropy (Adam (LR cfg)) metrics)).
Proof.
  unfold dcnn_multiclass. eval_sizes cfg. pass_summary. intros H. injection H as <-.
  exists ks, mp, st. repeat split.
  rewrite (fold_left_stages metric _ _ (multiclass_block_stage metric _ _ _ _ _ _ _)).
  unfold compile, add, Sequential_new. simpl. rewrite <- !app_assoc. reflexivity.
Qed.

Lemma dcnn_multiclass_resnet_ok (cfg : ModelConfig) (input_shape : shape) (num_classes : Z)
    (metrics : list metric) (m : Model metric) :
  dcnn_multiclass_resnet metric eval cfg input_shape num_classes metrics = Ok m ->
  exists ks mp st,
    eval (KERNEL_SIZE cfg) = Some ks /\
    eval (MAXPOOL_SIZE cfg) = Some mp /\
    eval (STRIDES cfg) = Some st /\
    m = mkModel (Input input_shape)
          (Call (Dense (mkDense num_classes (Some softmax) None Omitted None (Some "output")))
             (Call LeakyReLU
                (Call (Dense (mkDense (NODES_DENSE0 cfg) None (Some he_uniform) Omitted
                                      (Some (l2 (L2_LAMBDA cfg))) None))
                   (Call (Dropout (DROPOUT cfg))
                      (Call Flatten
                         (resnet_trunk (INIT_FILTERS cfg) (FILTER_EXP_BASE cfg) ks st mp
                                       (L2_LAMBDA cfg) input_shape
                                       (Z.to_nat (CONV_BLOCKS cfg))))))))
          (Some (mkCompile categorical_crossentropy (Adam (LR cfg)) metrics)).
Proof.
  unfold dcnn_multiclass_resnet. eval_sizes cfg. intros H. injection H as <-.
  exists ks, mp, st. repeat split.
  rewrite resnet_trunk_range. reflexivity.
Qed.

End BuilderResults.

(** ** Lists of stages *)

Lemma last_layer_app_head (layers head : list Layer) :
  head <> [] -> last_layer (layers ++ head) = last_layer head.
Proof.
  intros Hhead. induction layers as [|a layers IH]; [reflexivity|].
  simpl. rewrite IH. destruct (layers ++ head) eqn:E; [|reflexivity].
  apply app_eq_nil in E. tauto.
Qed.

Lemma nth_error_map_range {A : Type} (f : Z -> A) (n : Z) (i : nat) (a : A) :
  nth_error (map f (range n)) i = Some a ->
  a = f (Z.of_nat i) /\ (i < Z.to_nat n)%nat.
Proof.
  intros H.
  assert (Hi : (i < Z.to_nat n)%nat).
  { rewrite <- (range_length n), <- (length_map f). apply nth_error_Some. congruence. }
  split; [|exact Hi].
  rewrite nth_error_map, (range_nth n i Hi) in H. simpl in H. congruence.
Qed.

Lemma nth_error_map_range_lt {A : Type} (f : Z -> A) (n i : Z) :
  0 <= i < n -> nth_error (map f (range n)) (Z.to_nat i) = Some (f i).
Proof.
  intros Hi. rewrite nth_error_map, range_nth by lia. simpl.
  now rewrite Z2Nat.id by lia.
Qed.

Lemma length_map_range {A : Type} (f : Z -> A) (n : Z) :
  0 <= n -> Z.of_nat (List.length (map f (range n))) = n.
Proof. intros Hn. rewrite length_map, range_length. lia. Qed.

Lemma firstn_three {A : Type} (l : list A) (a b c : A) :
  nth_error l 0 = Some a -> nth_error l 1 = Some b -> nth_error l 2 = Some c ->
  firstn 3 l = [a; b; c].
Proof.
  destruct l as [|x [|y [|z l]]]; simpl; try discriminate.
  now intros [= ->] [= ->] [= ->].
Qed.

(** * The claims *)

Section Claims.

Variable metric : Type.
Variable eval : string -> option pyval.

(** C1: whatever the configuration and the input shape, a model returned by
    [dcnn_binary] ends in a [Dense] layer with one unit and a sigmoid
    activation, and a model returned by [dcnn_multiclass] or
    [dcnn_multiclass_resnet] ends in a [Dense] layer with [num_classes] units
    and a softmax activation. *)
Theorem output_layer_units_activation (cfg : ModelConfig) (input_shape : shape)
    (num_classes : Z) (metrics : list metric) (output_bias : option pyval) :
  (forall m, dcnn_binary metric eval cfg input_shape metrics output_bias = Ok m ->
     exists d, last_layer (seq_layers m) = Some (Dense d) /\
               dense_units d = 1 /\ dense_activation d = Some sigmoid) /\
  (forall m, dcnn_multiclass metric eval cfg input_shape num_classes metrics = Ok m ->
     exists d, last_layer (seq_layers m) = Some (Dense d) /\
               dense_units d = num_classes /\ dense_activation d = Some softmax) /\
  (forall m, dcnn_multiclass_resnet metric eval cfg input_shape num_classes metrics = Ok m ->
     exists d, producer (model_outputs m) = Some (Dense d) /\
               dense_units d = num_classes /\ dense_activation d = Some softmax).
Proof.
  repeat split; intros m H.
  - apply dcnn_binary_ok in H as (ks & mp & st & _ & _ & _ & ->).
    eexists. split; [simpl seq_layers; now rewrite last_layer_app_head|].
    split; reflexivity.
  - apply dcnn_multiclass_ok in H as (ks & mp & st & _ & _ & _ & ->).
    eexists. split; [simpl seq_layers; now rewrite last_layer_app_head|].
    split; reflexivity.
  - apply dcnn_multiclass_resnet_ok in H as (ks & mp & st & _ & _ & _ & ->).
    eexists. split; [reflexivity|]. split; reflexivity.
Qed.

(** C5, as the code has it: in a model returned by [dcnn_binary], the output
    layer is built with [bias_initializer=Constant(b)] when the caller
    supplies the bias [b]; when the caller supplies none, it is built with
    [bias_initializer=None], passed explicitly.  In neither case is the
    keyword left out, which is how a layer gets its default bias
    initialization. *)
Theorem binary_output_bias_initializer (cfg : ModelConfig) (input_shape : shape)
    (metrics : list metric) (output_bias : option pyval) (m : Sequential metric) :
  dcnn_binary metric eval cfg input_shape metrics output_bias = Ok m ->
  exists d, last_layer (seq_layers m) = Some (Dense d) /\
    (forall b, output_bias = Some b ->
               dense_bias_initializer d = Passed (Some (Constant b))) /\
    (output_bias = None -> dense_bias_initializer d = Passed None) /\
    dense_bias_initializer d <> Omitted.
Proof.
  intros H. apply dcnn_binary_ok in H as (ks & mp & st & _ & _ & _ & ->).
  eexists. split; [simpl seq_layers; now rewrite last_layer_app_head|].
  split; [intros b ->; reflexivity|]. split; [intros ->; reflexivity|discriminate].
Qed.

(** C7: every model a builder returns has been compiled, with the optimizer
    [Adam(learning_rate=LR)], with the caller's metric list unchanged, and
    with the loss [binary_crossentropy] in [dcnn_binary] and
    [categorical_crossentropy] in the two multiclass builders. *)
Theorem compile_arguments (cfg : ModelConfig) (input_shape : shape)
    (num_classes : Z) (metrics : list metric) (output_bias : option pyval) :
  (forall m, dcnn_binary metric eval cfg input_shape metrics output_bias = Ok m ->
     seq_compiled m = Some (mkCompile binary_crossentropy (Adam (LR cfg)) metrics)) /\
  (forall m, dcnn_multiclass metric eval cfg input_shape num_classes metrics = Ok m ->
     seq_compiled m = Some (mkCompile categorical_crossentropy (Adam (LR cfg)) metrics)) /\
  (forall m, dcnn_multiclass_resnet metric eval cfg input_shape num_classes metrics = Ok m ->
     model_compiled m = Some (mkCompile categorical_crossentropy (Adam (LR cfg)) metrics)).
Proof.
  repeat split; intros m H.
  - apply dcnn_binary_ok in H as (ks & mp & st & _ & _ & _ & ->). reflexivity.
  - apply dcnn_multiclass_ok in H as (ks & mp & st & _ & _ & _ & ->). reflexivity.
  - apply dcnn_multiclass_resnet_ok in H as (ks & mp & st & _ & _ & _ & ->). reflexivity.
Qed.

(** The stages [split_stages] finds in a model of [dcnn_binary]. *)
Lemma binary_stages (cfg : ModelConfig) (input_shape : shape) (metrics : list metric)
    (output_bias : option pyval) (m : Sequential metric) :
  dcnn_binary metric eval cfg input_shape metrics output_bias = Ok m ->
  exists ks mp st head,
    eval (KERNEL_SIZE cfg) = Some ks /\
    split_stages (seq_layers m) =
      (map (fun i =>
              mkStage (mkConv2D (block_filters (INIT_FILTERS cfg) (FILTER_EXP_BASE cfg) i)
                                ks st same he_uniform (l2 (L2_LAMBDA cfg))
                                (if i =? 0 then Some input_shape else None))
                      mp same)
           (range (CONV_BLOCKS cfg)), head) /\
    hd_error head = Some Flatten /\
    forallb (fun l => negb (is_conv_or_pool l)) head = true.
Proof.
  intros H. apply dcnn_binary_ok in H as (ks & mp & st & Hks & _ & _ & ->).
  exists ks, mp, st. eexists. split; [exact Hks|].
  split; [simpl seq_layers; apply split_stages_app; reflexivity|].
  split; reflexivity.
Qed.

(** The stages [split_stages] finds in a model of [dcnn_multiclass]. *)
Lemma multiclass_stages (cfg : ModelConfig) (input_shape : shape) (num_classes : Z)
    (metrics : list metric) (m : Sequential metric) :
  dcnn_multiclass metric eval cfg input_shape num_classes metrics = Ok m ->
  exists ks mp st head,
    eval (KERNEL_SIZE cfg) = Some ks /\
    split_stages (seq_layers m) =
      (map (fun i =>
              mkStage (mkConv2D (block_filters (INIT_FILTERS cfg) (FILTER_EXP_BASE cfg) i)
                                (if i =? 0 then PyInt (FILTER_EXP_BASE cfg ^ i) else ks)
                                st same he_uniform (l2 (L2_LAMBDA cfg))
                                (if i =? 0 then Some input_shape else None))
                      mp same)
           (range (CONV_BLOCKS cfg)), head) /\
    hd_error head = Some Flatten /\
    forallb (fun l => negb (is_conv_or_pool l)) head = true.
Proof.
  intros H. apply dcnn_multiclass_ok in H as (ks & mp & st & Hks & _ & _ & ->).
  exists ks, mp, st. eexists. split; [exact Hks|].
  split; [simpl seq_layers; apply split_stages_app; reflexivity|].
  split; reflexivity.
Qed.

(** The trunk of a model of [dcnn_multiclass_resnet]. *)
Lemma resnet_trunk_of_model (cfg : ModelConfig) (input_shape : shape) (num_classes : Z)
    (metrics : list metric) (m : Model metric) :
  dcnn_multiclass_resnet metric eval cfg input_shape num_classes metrics = Ok m ->
  exists ks mp st,
    eval (KERNEL_SIZE cfg) = Some ks /\
    head_input (model_outputs m) =
      Some (resnet_trunk (INIT_FILTERS cfg) (FILTER_EXP_BASE cfg) ks st mp (L2_LAMBDA cfg)
                         input_shape (Z.to_nat (CONV_BLOCKS cfg))).
Proof.
  intros H. apply dcnn_multiclass_resnet_ok in H as (ks & mp & st & Hks & _ & _ & ->).
  exists ks, mp, st. split; [exact Hks|reflexivity].
Qed.

(** C2: in a model of [dcnn_multiclass] the convolution of block 0 has the
    integer [FILTER_EXP_BASE ** 0] as its kernel size, where the block index
    is the exponent, and the convolution of every later block has the value
    of the configured kernel-size expression; in the models of [dcnn_binary]
    and [dcnn_multiclass_resnet] every convolution has the value of the
    configured kernel-size expression. *)
Theorem multiclass_first_block_kernel (cfg : ModelConfig) (input_shape : shape)
    (num_classes : Z) (metrics : list metric) (output_bias : option pyval) :
  (forall m i s,
     dcnn_multiclass metric eval cfg input_shape num_classes metrics = Ok m ->
     nth_error (fst (split_stages (seq_layers m))) i = Some s ->
     (i = O -> conv_kernel_size (stage_conv s) = PyInt (FILTER_EXP_BASE cfg ^ Z.of_nat i)) /\
     (i <> O -> eval (KERNEL_SIZE cfg) = Some (conv_kernel_size (stage_conv s)))) /\
  (forall m i s,
     dcnn_binary metric eval cfg input_shape metrics output_bias = Ok m ->
     nth_error (fst (split_stages (seq_layers m))) i = Some s ->
     eval (KERNEL_SIZE cfg) = Some (conv_kernel_size (stage_conv s))) /\
  (forall m trunk i b,
     dcnn_multiclass_resnet metric eval cfg input_shape num_classes metrics = Ok m ->
     head_input (model_outputs m) = Some trunk ->
     nth_error (res_blocks trunk) i = Some b ->
     eval (KERNEL_SIZE cfg) = Some (conv_kernel_size (res_conv1 b)) /\
     eval (KERNEL_SIZE cfg) = Some (conv_kernel_size (res_conv2 b))).
Proof.
  split; [|split].
  - intros m i s H Hs.
    apply multiclass_stages in H as (ks & mp & st & head & Hks & Hm & _).
    rewrite Hm in Hs. apply nth_error_map_range in Hs as [-> _]. simpl.
    split.
    + intros ->. reflexivity.
    + intros Hi. destruct (Z.eqb_spec (Z.of_nat i) 0); [lia|exact Hks].
  - intros m i s H Hs.
    apply binary_stages in H as (ks & mp & st & head & Hks & Hm & _).
    rewrite Hm in Hs. apply nth_error_map_range in Hs as [-> _]. exact Hks.
  - intros m trunk i b H Ht Hb.
    apply resnet_trunk_of_model in H as (ks & mp & st & Hks & Ht').
    rewrite Ht' in Ht. injection Ht as <-.
    assert (Hi : (i < Z.to_nat (CONV_BLOCKS cfg))%nat).
    { rewrite <- (res_blocks_trunk_length (INIT_FILTERS cfg) (FILTER_EXP_BASE cfg) ks st mp
                    (L2_LAMBDA cfg) input_shape).
      apply nth_error_Some. congruence. }
    rewrite res_blocks_trunk_nth in Hb by exact Hi. injection Hb as <-.
    split; exact Hks.
Qed.

(** C3: with a block count [n >= 0], a model of [dcnn_binary] or
    [dcnn_multiclass] is a stack of exactly [n] stages (convolution, batch
    normalisation, leaky ReLU, max pooling) followed by a head that starts
    with [Flatten] and holds no convolution and no pooling; the trunk of a
    model of [dcnn_multiclass_resnet], the tensor that enters [Flatten], is
    made of exactly [n] residual blocks on top of the input tensor. *)
Theorem conv_stage_count (cfg : ModelConfig) (input_shape : shape)
    (num_classes : Z) (metrics : list metric) (output_bias : option pyval) :
  0 <= CONV_BLOCKS cfg ->
  (forall m, dcnn_binary metric eval cfg input_shape metrics output_bias = Ok m ->
     exists stages head,
       split_stages (seq_layers m) = (stages, head) /\
       Z.of_nat (List.length stages) = CONV_BLOCKS cfg /\
       hd_error head = Some Flatten /\
       forallb (fun l => negb (is_conv_or_pool l)) head = true) /\
  (forall m, dcnn_multiclass metric eval cfg input_shape num_classes metrics = Ok m ->
     exists stages head,
       split_stages (seq_layers m) = (stages, head) /\
       Z.of_nat (List.length stages) = CONV_BLOCKS cfg /\
       hd_error head = Some Flatten /\
       forallb (fun l => negb (is_conv_or_pool l)) head = true) /\
  (forall m, dcnn_multiclass_resnet metric eval cfg input_shape num_classes metrics = Ok m ->
     exists trunk,
       head_input (model_outputs m) = Some trunk /\
       Z.of_nat (List.length (res_blocks trunk)) = CONV_BLOCKS cfg /\
       res_root trunk = Input input_shape).
Proof.
  intros Hn. split; [|split]; intros m H.
  - apply binary_stages in H as (ks & mp & st & head & _ & Hs & Hhd & Hhead).
    eexists. exists head. split; [exact Hs|].
    split; [now apply length_map_range|]. now split.
  - apply multiclass_stages in H as (ks & mp & st & head & _ & Hs & Hhd & Hhead).
    eexists. exists head. split; [exact Hs|].
    split; [now apply length_map_range|]. now split.
  - apply resnet_trunk_of_model in H as (ks & mp & st & _ & Ht).
    eexists. split; [exact Ht|].
    rewrite res_blocks_trunk_length, res_root_trunk. split; [lia|reflexivity].
Qed.

(** The residual block [res_blocks] finds at position [i] of a model. *)
Lemma resnet_block_of_model (cfg : ModelConfig) (input_shape : shape) (num_classes : Z)
    (metrics : list metric) (m : Model metric) :
  dcnn_multiclass_resnet metric eval cfg input_shape num_classes metrics = Ok m ->
  exists ks mp st,
    head_input (model_outputs m) =
      Some (resnet_trunk (INIT_FILTERS cfg) (FILTER_EXP_BASE cfg) ks st mp (L2_LAMBDA cfg)
                         input_shape (Z.to_nat (CONV_BLOCKS cfg))) /\
    forall i, 0 <= i < CONV_BLOCKS cfg ->
      exists b,
        nth_error (res_blocks (resnet_trunk (INIT_FILTERS cfg) (FILTER_EXP_BASE cfg) ks st mp
                                            (L2_LAMBDA cfg) input_shape
                                            (Z.to_nat (CONV_BLOCKS cfg))))
                  (Z.to_nat i) = Some b /\
        conv_filters (res_conv1 b) = INIT_FILTERS cfg * FILTER_EXP_BASE cfg ^ i /\
        conv_filters (res_conv2 b) = INIT_FILTERS cfg * FILTER_EXP_BASE cfg ^ i.
Proof.
  intros H. apply resnet_trunk_of_model in H as (ks & mp & st & _ & Ht).
  exists ks, mp, st. split; [exact Ht|].
  intros i Hi. eexists. split; [apply res_blocks_trunk_nth; lia|].
  simpl. unfold block_filters. rewrite Z2Nat.id by lia. split; reflexivity.
Qed.

(** C4: in the models of all three builders the convolution of block [i]
    (both convolutions of block [i] in the residual builder) has
    [INIT_FILTERS * FILTER_EXP_BASE ** i] filters, for every [i] below the
    block count; with 16 initial filters and growth base 2 the first three
    blocks have 16, 32 and 64 filters. *)
Theorem block_filter_counts (cfg : ModelConfig) (input_shape : shape)
    (num_classes : Z) (metrics : list metric) (output_bias : option pyval) :
  (forall m i,
     dcnn_binary metric eval cfg input_shape metrics output_bias = Ok m ->
     0 <= i < CONV_BLOCKS cfg ->
     exists s, nth_error (fst (split_stages (seq_layers m))) (Z.to_nat i) = Some s /\
               conv_filters (stage_conv s) = INIT_FILTERS cfg * FILTER_EXP_BASE cfg ^ i) /\
  (forall m i,
     dcnn_multiclass metric eval cfg input_shape num_classes metrics = Ok m ->
     0 <= i < CONV_BLOCKS cfg ->
     exists s, nth_error (fst (split_stages (seq_layers m))) (Z.to_nat i) = Some s /\
               conv_filters (stage_conv s) = INIT_FILTERS cfg * FILTER_EXP_BASE cfg ^ i) /\
  (forall m i,
     dcnn_multiclass_resnet metric eval cfg input_shape num_classes metrics = Ok m ->
     0 <= i < CONV_BLOCKS cfg ->
     exists trunk b,
       head_input (model_outputs m) = Some trunk /\
       nth_error (res_blocks trunk) (Z.to_nat i) = Some b /\
       conv_filters (res_conv1 b) = INIT_FILTERS cfg * FILTER_EXP_BASE cfg ^ i /\
       conv_filters (res_conv2 b) = INIT_FILTERS cfg * FILTER_EXP_BASE cfg ^ i) /\
  (INIT_FILTERS cfg = 16 -> FILTER_EXP_BASE cfg = 2 -> 3 <= CONV_BLOCKS cfg ->
   (forall m,
      dcnn_binary metric eval cfg input_shape metrics output_bias = Ok m ->
      map (fun s => conv_filters (stage_conv s))
          (firstn 3 (fst (split_stages (seq_layers m)))) = [16; 32; 64]) /\
   (forall m,
      dcnn_multiclass metric eval cfg input_shape num_classes metrics = Ok m ->
      map (fun s => conv_filters (stage_conv s))
          (firstn 3 (fst (split_stages (seq_layers m)))) = [16; 32; 64]) /\
   (forall m trunk,
      dcnn_multiclass_resnet metric eval cfg input_shape num_classes metrics = Ok m ->
      head_input (model_outputs m) = Some trunk ->
      map (fun b => (conv_filters (res_conv1 b), conv_filters (res_conv2 b)))
          (firstn 3 (res_blocks trunk)) = [(16, 16); (32, 32); (64, 64)])).
Proof.
  assert (Hbin : forall m i,
     dcnn_binary metric eval cfg input_shape metrics output_bias = Ok m ->
     0 <= i < CONV_BLOCKS cfg ->
     exists s, nth_error (fst (split_stages (seq_layers m))) (Z.to_nat i) = Some s /\
               conv_filters (stage_conv s) = INIT_FILTERS cfg * FILTER_EXP_BASE cfg ^ i).
  { intros m i H Hi.
    apply binary_stages in H as (ks & mp & st & head & _ & Hm & _).
    rewrite Hm. simpl fst. eexists. split; [now apply nth_error_map_range_lt|reflexivity]. }
  assert (Hmul : forall m i,
     dcnn_multiclass metric eval cfg input_shape num_classes metrics = Ok m ->
     0 <= i < CONV_BLOCKS cfg ->
     exists s, nth_error (fst (split_stages (seq_layers m))) (Z.to_nat i) = Some s /\
               conv_filters (stage_conv s) = INIT_FILTERS cfg * FILTER_EXP_BASE cfg ^ i).
  { intros m i H Hi.
    apply multiclass_stages in H as (ks & mp & st & head & _ & Hm & _).
    rewrite Hm. simpl fst. eexists. split; [now apply nth_error_map_range_lt|reflexivity]. }
  split; [exact Hbin|]. split; [exact Hmul|]. split.
  - intros m i H Hi.
    apply resnet_block_of_model in H as (ks & mp & st & Ht & Hb).
    destruct (Hb i Hi) as (b & Hnth & H1 & H2).
    eexists. exists b. split; [exact Ht|]. split; [exact Hnth|]. now split.
  - intros Hinit Hbase Hn. split; [|split].
    + intros m H.
      destruct (Hbin m 0 H) as (s0 & E0 & F0); [lia|].
      destruct (Hbin m 1 H) as (s1 & E1 & F1); [lia|].
      destruct (Hbin m 2 H) as (s2 & E2 & F2); [lia|].
      rewrite (firstn_three _ _ _ _ E0 E1 E2). simpl.
      rewrite F0, F1, F2, Hinit, Hbase. reflexivity.
    + intros m H.
      destruct (Hmul m 0 H) as (s0 & E0 & F0); [lia|].
      destruct (Hmul m 1 H) as (s1 & E1 & F1); [lia|].
      destruct (Hmul m 2 H) as (s2 & E2 & F2); [lia|].
      rewrite (firstn_three _ _ _ _ E0 E1 E2). simpl.
      rewrite F0, F1, F2, Hinit, Hbase. reflexivity.
    + intros m trunk H Ht.
      apply resnet_block_of_model in H as (ks & mp & st & Ht' & Hb).
      rewrite Ht' in Ht. injection Ht as <-.
      destruct (Hb 0) as (b0 & E0 & F0 & G0); [lia|].
      destruct (Hb 1) as (b1 & E1 & F1 & G1); [lia|].
      destruct (Hb 2) as (b2 & E2 & F2 & G2); [lia|].
      rewrite (firstn_three _ _ _ _ E0 E1 E2). simpl.
      rewrite F0, F1, F2, G0, G1, G2, Hinit, Hbase. reflexivity.
Qed.

(** C6: in a model of [dcnn_multiclass_resnet], every residual block keeps
    its input as the shortcut (the network input for block 0, the pooled
    output of the previous block afterwards), sends it through two
    convolutions, concatenates the result with the shortcut, and only then
    normalises, activates and pools; the tensor that is pooled has as many
    channels as the shortcut and the transformed branch together. *)
Theorem resnet_block_structure (cfg : ModelConfig) (input_shape : shape)
    (num_classes : Z) (metrics : list metric) (m : Model metric) :
  dcnn_multiclass_resnet metric eval cfg input_shape num_classes metrics = Ok m ->
  exists trunk,
    head_input (model_outputs m) = Some trunk /\
    List.length (res_blocks trunk) = Z.to_nat (CONV_BLOCKS cfg) /\
    forall i b, nth_error (res_blocks trunk) i = Some b ->
      res_branch_input b = res_shortcut b /\
      (i = O -> res_shortcut b = Input input_shape) /\
      (forall j b', i = S j -> nth_error (res_blocks trunk) j = Some b' ->
         res_shortcut b = Call (MaxPool2D (res_pool_size b') same) (res_pre_pool b')) /\
      res_transformed b =
        Call (Conv2D (res_conv2 b))
          (Call LeakyReLU
            (Call BatchNormalization (Call (Conv2D (res_conv1 b)) (res_branch_input b)))) /\
      res_pre_pool b =
        Call LeakyReLU
          (Call BatchNormalization (Concatenate (res_transformed b) (res_shortcut b))) /\
      (forall c, last_axis input_shape = Some c ->
         exists cs ct,
           channels (res_shortcut b) = Some cs /\
           channels (res_transformed b) = Some ct /\
           channels (res_pre_pool b) = Some (cs + ct) /\
           cs = c + filters_before (INIT_FILTERS cfg) (FILTER_EXP_BASE cfg) i /\
           ct = INIT_FILTERS cfg * FILTER_EXP_BASE cfg ^ Z.of_nat i).
Proof.
  intros H. apply resnet_trunk_of_model in H as (ks & mp & st & _ & Ht).
  eexists. split; [exact Ht|]. split; [apply res_blocks_trunk_length|].
  intros i b Hb.
  assert (Hi : (i < Z.to_nat (CONV_BLOCKS cfg))%nat).
  { rewrite <- (res_blocks_trunk_length (INIT_FILTERS cfg) (FILTER_EXP_BASE cfg) ks st mp
                  (L2_LAMBDA cfg) input_shape).
    apply nth_error_Some. congruence. }
  rewrite res_blocks_trunk_nth in Hb by exact Hi. injection Hb as <-.
  split; [reflexivity|]. split; [intros ->; reflexivity|].
  split.
  { intros j b' -> Hb'. rewrite res_blocks_trunk_nth in Hb' by lia.
    injection Hb' as <-. simpl. rewrite resnet_trunk_S. reflexivity. }
  split; [reflexivity|]. split; [reflexivity|].
  intros c Hc. simpl.
  rewrite (channels_trunk _ _ _ _ _ _ _ c i Hc).
  do 2 eexists. split; [reflexivity|]. split; [reflexivity|].
  split; [f_equal; lia|]. split; reflexivity.
Qed.

(** C8: when one of the three size expressions is rejected by [eval], each
    builder raises, at the first rejected expression, and returns no model;
    and in every case a call either returns a compiled model that carries its
    output layer or raises: nothing in between is returned. *)
Theorem malformed_size_expression_fails (cfg : ModelConfig) (input_shape : shape)
    (num_classes : Z) (metrics : list metric) (output_bias : option pyval) :
  (eval (KERNEL_SIZE cfg) = None \/ eval (MAXPOOL_SIZE cfg) = None \/
   eval (STRIDES cfg) = None ->
   exists source,
     first_rejected eval cfg = Some source /\
     dcnn_binary metric eval cfg input_shape metrics output_bias
       = Raise (EvalError source) /\
     dcnn_multiclass metric eval cfg input_shape num_classes metrics
       = Raise (EvalError source) /\
     dcnn_multiclass_resnet metric eval cfg input_shape num_classes metrics
       = Raise (EvalError source)) /\
  ((exists m, dcnn_binary metric eval cfg input_shape metrics output_bias = Ok m /\
              seq_compiled m <> None /\
              exists d, last_layer (seq_layers m) = Some (Dense d) /\
                        dense_name d = Some "output") \/
   (exists e, dcnn_binary metric eval cfg input_shape metrics output_bias = Raise e)) /\
  ((exists m, dcnn_multiclass metric eval cfg input_shape num_classes metrics = Ok m /\
              seq_compiled m <> None /\
              exists d, last_layer (seq_layers m) = Some (Dense d) /\
                        dense_name d = Some "output") \/
   (exists e, dcnn_multiclass metric eval cfg input_shape num_classes metrics = Raise e)) /\
  ((exists m, dcnn_multiclass_resnet metric eval cfg input_shape num_classes metrics = Ok m /\
              model_compiled m <> None /\
              exists d, producer (model_outputs m) = Some (Dense d) /\
                        dense_name d = Some "output") \/
   (exists e, dcnn_multiclass_resnet metric eval cfg input_shape num_classes metrics
              = Raise e)).
Proof.
  split; [|split; [|split]].
  - intros Hbad.
    unfold first_rejected, dcnn_binary, dcnn_multiclass, dcnn_multiclass_resnet, py_eval.
    destruct (eval (KERNEL_SIZE cfg)) as [ks|]; simpl;
      [|eexists; repeat split; reflexivity].
    destruct (eval (MAXPOOL_SIZE cfg)) as [mp|]; simpl;
      [|eexists; repeat split; reflexivity].
    destruct (eval (STRIDES cfg)) as [st|]; simpl;
      [|eexists; repeat split; reflexivity].
    destruct Hbad as [Hbad|[Hbad|Hbad]]; discriminate.
  - destruct (dcnn_binary metric eval cfg input_shape metrics output_bias) as [m|e] eqn:E;
      [left|right; now exists e].
    exists m. split; [reflexivity|].
    apply dcnn_binary_ok in E as (ks & mp & st & _ & _ & _ & ->).
    split; [discriminate|]. eexists.
    split; [simpl seq_layers; now rewrite last_layer_app_head|reflexivity].
  - destruct (dcnn_multiclass metric eval cfg input_shape num_classes metrics)
      as [m|e] eqn:E; [left|right; now exists e].
    exists m. split; [reflexivity|].
    apply dcnn_multiclass_ok in E as (ks & mp & st & _ & _ & _ & ->).
    split; [discriminate|]. eexists.
    split; [simpl seq_layers; now rewrite last_layer_app_head|reflexivity].
  - destruct (dcnn_multiclass_resnet metric eval cfg input_shape num_classes metrics)
      as [m|e] eqn:E; [left|right; now exists e].
    exists m. split; [reflexivity|].
    apply dcnn_multiclass_resnet_ok in E as (ks & mp & st & _ & _ & _ & ->).
    split; [discriminate|]. eexists. split; reflexivity.
Qed.

(** C9, as the code has it: with a block count of zero, [dcnn_binary] and
    [dcnn_multiclass] return no model.  When the size expressions evaluate,
    the loop adds no layer, the model is never given an input shape and
    [model.summary()] raises [ValueError].  [dcnn_multiclass_resnet] has
    nothing that stops it: a model it returns for a block count of zero is
    compiled and its input tensor goes straight into [Flatten] and the dense
    head. *)
Theorem zero_blocks_outcome (cfg : ModelConfig) (input_shape : shape)
    (num_classes : Z) (metrics : list metric) (output_bias : option pyval) :
  CONV_BLOCKS cfg = 0 ->
  (exists e, dcnn_binary metric eval cfg input_shape metrics output_bias = Raise e) /\
  (exists e, dcnn_multiclass metric eval cfg input_shape num_classes metrics = Raise e) /\
  (first_rejected eval cfg = None ->
   dcnn_binary metric eval cfg input_shape metrics output_bias = Raise ValueError) /\
  (first_rejected eval cfg = None ->
   dcnn_multiclass metric eval cfg input_shape num_classes metrics = Raise ValueError) /\
  (forall m, dcnn_multiclass_resnet metric eval cfg input_shape num_classes metrics = Ok m ->
     model_compiled m <> None /\
     model_inputs m = Input input_shape /\
     head_input (model_outputs m) = Some (Input input_shape)).
Proof.
  intros Hn.
  assert (Hr : range (CONV_BLOCKS cfg) = []) by (rewrite Hn; reflexivity).
  assert (Hseq :
    match first_rejected eval cfg with
    | Some source =>
        dcnn_binary metric eval cfg input_shape metrics output_bias
          = Raise (EvalError source) /\
        dcnn_multiclass metric eval cfg input_shape num_classes metrics
          = Raise (EvalError source)
    | None =>
        dcnn_binary metric eval cfg input_shape metrics output_bias = Raise ValueError /\
        dcnn_multiclass metric eval cfg input_shape num_classes metrics = Raise ValueError
    end).
  { unfold first_rejected, dcnn_binary, dcnn_multiclass, py_eval. rewrite Hr.
    destruct (eval (KERNEL_SIZE cfg)); [|split; reflexivity].
    destruct (eval (MAXPOOL_SIZE cfg)); [|split; reflexivity].
    destruct (eval (STRIDES cfg)); split; reflexivity. }
  split; [|split; [|split; [|split]]].
  - destruct (first_rejected eval cfg); eexists; apply Hseq.
  - destruct (first_rejected eval cfg); eexists; apply Hseq.
  - intros Hnone. rewrite Hnone in Hseq. apply Hseq.
  - intros Hnone. rewrite Hnone in Hseq. apply Hseq.
  - intros m H. apply dcnn_multiclass_resnet_ok in H as (ks & mp & st & _ & _ & _ & ->).
    rewrite Hn. split; [discriminate|]. split; reflexivity.
Qed.

(** C10: in every model of [dcnn_multiclass] that has at least one block, the
    first layer is a convolution whose kernel size is the integer 1, whatever
    [FILTER_EXP_BASE] and [KERNEL_SIZE] the configuration holds. *)
Theorem multiclass_first_kernel_is_one (cfg : ModelConfig) (input_shape : shape)
    (num_classes : Z) (metrics : list metric) (m : Sequential metric) :
  dcnn_multiclass metric eval cfg input_shape num_classes metrics = Ok m ->
  0 < CONV_BLOCKS cfg ->
  exists c rest,
    seq_layers m = Conv2D c :: rest /\
    conv_kernel_size c = PyInt 1.
Proof.
  intros H Hn. apply dcnn_multiclass_ok in H as (ks & mp & st & _ & _ & _ & ->).
  destruct (range_pos _ Hn) as [rest ->]. simpl.
  do 2 eexists. split; reflexivity.
Qed.

End Claims.

(** * The claims on the sample configuration

    Each lemma below runs the builders on [sample_config] with [size_literal]
    as [eval] and applies the corresponding theorem to the result. *)

Lemma output_layer_units_activation_witness :
  (exists m d,
     dcnn_binary string size_literal sample_config sample_shape sample_metrics
                 (Some (PyFloat 0.5%float)) = Ok m /\
     last_layer (seq_layers m) = Some (Dense d) /\
     dense_units d = 1 /\ dense_activation d = Some sigmoid) /\
  (exists m d,
     dcnn_multiclass string size_literal sample_config sample_shape 3 sample_metrics = Ok m /\
     last_layer (seq_layers m) = Some (Dense d) /\
     dense_units d = 3 /\ dense_activation d = Some softmax) /\
  (exists m d,
     dcnn_multiclass_resnet string size_literal sample_config sample_shape 3 sample_metrics
       = Ok m /\
     producer (model_outputs m) = Some (Dense d) /\
     dense_units d = 3 /\ dense_activation d = Some softmax).
Proof.
  destruct (output_layer_units_activation string size_literal sample_config sample_shape 3
              sample_metrics (Some (PyFloat 0.5%float))) as (Hb & Hm & Hr).
  split; [|split].
  - destruct (Hb _ eq_refl) as (d & H). eexists. exists d. split; [reflexivity|exact H].
  - destruct (Hm _ eq_refl) as (d & H). eexists. exists d. split; [reflexivity|exact H].
  - destruct (Hr _ eq_refl) as (d & H). eexists. exists d. split; [reflexivity|exact H].
Defined.

Lemma multiclass_first_block_kernel_witness :
  (exists m s0 s1,
     dcnn_multiclass string size_literal sample_config sample_shape 3 sample_metrics = Ok m /\
     nth_error (fst (split_stages (seq_layers m))) 0 = Some s0 /\
     nth_error (fst (split_stages (seq_layers m))) 1 = Some s1 /\
     conv_kernel_size (stage_conv s0) = PyInt (2 ^ 0) /\
     size_literal "(3,3)" = Some (conv_kernel_size (stage_conv s1))) /\
  (exists m s0,
     dcnn_binary string size_literal sample_config sample_shape sample_metrics None = Ok m /\
     nth_error (fst (split_stages (seq_layers m))) 0 = Some s0 /\
     size_literal "(3,3)" = Some (conv_kernel_size (stage_conv s0))) /\
  (exists m trunk b0,
     dcnn_multiclass_resnet string size_literal sample_config sample_shape 3 sample_metrics
       = Ok m /\
     head_input (model_outputs m) = Some trunk /\
     nth_error (res_blocks trunk) 0 = Some b0 /\
     size_literal "(3,3)" = Some (conv_kernel_size (res_conv1 b0)) /\
     size_literal "(3,3)" = Some (conv_kernel_size (res_conv2 b0))).
Proof.
  destruct (multiclass_first_block_kernel string size_literal sample_config sample_shape 3
              sample_metrics None) as (Hm & Hb & Hr).
  split; [|split].
  - do 3 eexists.
    split; [reflexivity|]. split; [reflexivity|]. split; [reflexivity|].
    split.
    + exact (proj1 (Hm _ 0%nat _ eq_refl eq_refl) eq_refl).
    + refine (proj2 (Hm _ 1%nat _ eq_refl eq_refl) _). discriminate.
  - do 2 eexists.
    split; [reflexivity|]. split; [reflexivity|].
    exact (Hb _ 0%nat _ eq_refl eq_refl).
  - do 3 eexists.
    split; [reflexivity|]. split; [reflexivity|]. split; [reflexivity|].
    exact (Hr _ _ 0%nat _ eq_refl eq_refl eq_refl).
Defined.

Lemma conv_stage_count_witness :
  0 <= CONV_BLOCKS sample_config /\
  (exists m stages head,
     dcnn_binary string size_literal sample_config sample_shape sample_metrics None = Ok m /\
     split_stages (seq_layers m) = (stages, head) /\
     Z.of_nat (List.length stages) = 3 /\
     hd_error head = Some Flatten /\
     forallb (fun l => negb (is_conv_or_pool l)) head = true) /\
  (exists m stages head,
     dcnn_multiclass string size_literal sample_config sample_shape 3 sample_metrics = Ok m /\
     split_stages (seq_layers m) = (stages, head) /\
     Z.of_nat (List.length stages) = 3 /\
     hd_error head = Some Flatten /\
     forallb (fun l => negb (is_conv_or_pool l)) head = true) /\
  (exists m trunk,
     dcnn_multiclass_resnet string size_literal sample_config sample_shape 3 sample_metrics
       = Ok m /\
     head_input (model_outputs m) = Some trunk /\
     Z.of_nat (List.length (res_blocks trunk)) = 3 /\
     res_root trunk = Input sample_shape).
Proof.
  assert (Hn : 0 <= CONV_BLOCKS sample_config) by (simpl; lia).
  split; [exact Hn|].
  destruct (conv_stage_count string size_literal sample_config sample_shape 3
              sample_metrics None Hn) as (Hb & Hm & Hr).
  split; [|split].
  - destruct (Hb _ eq_refl) as (stages & head & H).
    eexists. exists stages, head. split; [reflexivity|exact H].
  - destruct (Hm _ eq_refl) as (stages & head & H).
    eexists. exists stages, head. split; [reflexivity|exact H].
  - destruct (Hr _ eq_refl) as (trunk & H).
    eexists. exists trunk. split; [reflexivity|exact H].
Defined.

Lemma block_filter_counts_witness :
  (exists m s,
     dcnn_binary string size_literal sample_config sample_shape sample_metrics None = Ok m /\
     nth_error (fst (split_stages (seq_layers m))) 2 = Some s /\
     conv_filters (stage_conv s) = 16 * 2 ^ 2) /\
  (exists m,
     dcnn_binary string size_literal sample_config sample_shape sample_metrics None = Ok m /\
     map (fun s => conv_filters (stage_conv s))
         (firstn 3 (fst (split_stages (seq_layers m)))) = [16; 32; 64]) /\
  (exists m,
     dcnn_multiclass string size_literal sample_config sample_shape 3 sample_metrics = Ok m /\
     map (fun s => conv_filters (stage_conv s))
         (firstn 3 (fst (split_stages (seq_layers m)))) = [16; 32; 64]) /\
  (exists m trunk,
     dcnn_multiclass_resnet string size_literal sample_config sample_shape 3 sample_metrics
       = Ok m /\
     head_input (model_outputs m) = Some trunk /\
     map (fun b => (conv_filters (res_conv1 b), conv_filters (res_conv2 b)))
         (firstn 3 (res_blocks trunk)) = [(16, 16); (32, 32); (64, 64)]).
Proof.
  destruct (block_filter_counts string size_literal sample_config sample_shape 3
              sample_metrics None) as (Hb & _ & _ & H16).
  destruct (H16 eq_refl eq_refl) as (Fb & Fm & Fr); [simpl; lia|].
  split; [|split; [|split]].
  - destruct (Hb _ 2 eq_refl) as (s & H); [simpl; lia|].
    eexists. exists s. split; [reflexivity|exact H].
  - eexists. split; [reflexivity|]. exact (Fb _ eq_refl).
  - eexists. split; [reflexivity|]. exact (Fm _ eq_refl).
  - do 2 eexists. split; [reflexivity|]. split; [reflexivity|].
    exact (Fr _ _ eq_refl eq_refl).
Defined.

Lemma binary_output_bias_initializer_witness :
  (exists m d,
     dcnn_binary string size_literal sample_config sample_shape sample_metrics
                 (Some (PyFloat 0.5%float)) = Ok m /\
     last_layer (seq_layers m) = Some (Dense d) /\
     dense_bias_initializer d = Passed (Some (Constant (PyFloat 0.5%float)))) /\
  (exists m d,
     dcnn_binary string size_literal sample_config sample_shape sample_metrics None = Ok m /\
     last_layer (seq_layers m) = Some (Dense d) /\
     dense_bias_initializer d = Passed None).
Proof.
  split.
  - destruct (binary_output_bias_initializer string size_literal sample_config sample_shape
                sample_metrics (Some (PyFloat 0.5%float)) _ eq_refl) as (d & Hd & Hsome & _ & _).
    eexists. exists d. split; [reflexivity|]. split; [exact Hd|]. exact (Hsome _ eq_refl).
  - destruct (binary_output_bias_initializer string size_literal sample_config sample_shape
                sample_metrics None _ eq_refl) as (d & Hd & _ & Hnone & _).
    eexists. exists d. split; [reflexivity|]. split; [exact Hd|]. exact (Hnone eq_refl).
Defined.

(** C5, as the spec states it, fails: called without an output bias,
    [dcnn_binary] builds the output layer with [bias_initializer=None], which
    is not a layer left at its default bias initialization; the hidden
    [Dense] layer of the same model is one. *)
Lemma binary_no_bias_is_not_default :
  exists m hidden out,
    dcnn_binary string size_literal sample_config sample_shape sample_metrics None = Ok m /\
    nth_error (seq_layers m) 14 = Some (Dense hidden) /\
    last_layer (seq_layers m) = Some (Dense out) /\
    dense_bias_initializer hidden = Omitted /\
    dense_bias_initializer out = Passed None /\
    dense_bias_initializer out <> dense_bias_initializer hidden.
Proof.
  do 3 eexists. split; [reflexivity|]. split; [reflexivity|]. split; [reflexivity|].
  split; [reflexivity|]. split; [reflexivity|discriminate].
Qed.

Lemma resnet_block_structure_witness :
  exists m trunk b0 b1,
    dcnn_multiclass_resnet string size_literal sample_config sample_shape 3 sample_metrics
      = Ok m /\
    head_input (model_outputs m) = Some trunk /\
    nth_error (res_blocks trunk) 0 = Some b0 /\
    nth_error (res_blocks trunk) 1 = Some b1 /\
    res_shortcut b0 = Input sample_shape /\
    res_shortcut b1 = Call (MaxPool2D (res_pool_size b0) same) (res_pre_pool b0) /\
    res_branch_input b1 = res_shortcut b1 /\
    channels (res_shortcut b1) = Some 19 /\
    channels (res_transformed b1) = Some 32 /\
    channels (res_pre_pool b1) = Some 51.
Proof.
  destruct (resnet_block_structure string size_literal sample_config sample_shape 3
              sample_metrics _ eq_refl) as (trunk & Ht & _ & Hblocks).
  lazy in Ht. injection Ht as <-.
  destruct (Hblocks 0%nat _ eq_refl) as (_ & H0 & _).
  destruct (Hblocks 1%nat _ eq_refl) as (Hin & _ & H1 & _ & _ & Hc).
  destruct (Hc 3 eq_refl) as (cs & ct & Hcs & Hct & Hpp & -> & ->).
  do 4 eexists.
  split; [reflexivity|]. split; [reflexivity|].
  split; [reflexivity|]. split; [reflexivity|].
  split; [exact (H0 eq_refl)|]. split; [exact (H1 _ _ eq_refl eq_refl)|].
  split; [exact Hin|]. split; [exact Hcs|]. split; [exact Hct|exact Hpp].
Defined.

Lemma compile_arguments_witness :
  (exists m,
     dcnn_binary string size_literal sample_config sample_shape sample_metrics None = Ok m /\
     seq_compiled m =
       Some (mkCompile binary_crossentropy (Adam 0x1p-10%float) ["accuracy"; "auc"])) /\
  (exists m,
     dcnn_multiclass string size_literal sample_config sample_shape 3 sample_metrics = Ok m /\
     seq_compiled m =
       Some (mkCompile categorical_crossentropy (Adam 0x1p-10%float) ["accuracy"; "auc"])) /\
  (exists m,
     dcnn_multiclass_resnet string size_literal sample_config sample_shape 3 sample_metrics
       = Ok m /\
     model_compiled m =
       Some (mkCompile categorical_crossentropy (Adam 0x1p-10%float) ["accuracy"; "auc"])).
Proof.
  destruct (compile_arguments string size_literal sample_config sample_shape 3
              sample_metrics None) as (Hb & Hm & Hr).
  split; [|split]; eexists; (split; [reflexivity|]).
  - exact (Hb _ eq_refl).
  - exact (Hm _ eq_refl).
  - exact (Hr _ eq_refl).
Defined.

Lemma malformed_size_expression_fails_witness :
  size_literal (KERNEL_SIZE broken_config) = None /\
  dcnn_binary string size_literal broken_config sample_shape sample_metrics None
    = Raise (EvalError "(3,3") /\
  dcnn_multiclass string size_literal broken_config sample_shape 3 sample_metrics
    = Raise (EvalError "(3,3") /\
  dcnn_multiclass_resnet string size_literal broken_config sample_shape 3 sample_metrics
    = Raise (EvalError "(3,3").
Proof.
  destruct (proj1 (malformed_size_expression_fails string size_literal broken_config
                     sample_shape 3 sample_metrics None) (or_introl eq_refl))
    as (source & Hfirst & Hb & Hm & Hr).
  lazy in Hfirst. injection Hfirst as <-.
  split; [reflexivity|]. split; [exact Hb|]. split; [exact Hm|exact Hr].
Defined.

Lemma zero_blocks_outcome_witness :
  CONV_BLOCKS zero_block_config = 0 /\
  dcnn_binary string size_literal zero_block_config sample_shape sample_metrics None
    = Raise ValueError /\
  dcnn_multiclass string size_literal zero_block_config sample_shape 3 sample_metrics
    = Raise ValueError /\
  (exists m,
     dcnn_multiclass_resnet string size_literal zero_block_config sample_shape 3
                            sample_metrics = Ok m /\
     model_compiled m <> None /\
     model_inputs m = Input sample_shape /\
     head_input (model_outputs m) = Some (Input sample_shape)).
Proof.
  assert (Hn : CONV_BLOCKS zero_block_config = 0) by reflexivity.
  destruct (zero_blocks_outcome string size_literal zero_block_config sample_shape 3
              sample_metrics None Hn) as (_ & _ & Hb & Hm & Hres).
  split; [exact Hn|]. split; [exact (Hb eq_refl)|]. split; [exact (Hm eq_refl)|].
  eexists. split; [reflexivity|]. exact (Hres _ eq_refl).
Defined.

(** C9, as the spec states it, fails: [dcnn_multiclass_resnet] called with a
    block count of zero returns a compiled model whose input tensor goes
    straight into [Flatten] and the dense head. *)
Lemma zero_block_resnet_returns_model :
  CONV_BLOCKS zero_block_config = 0 /\
  dcnn_multiclass_resnet string size_literal zero_block_config sample_shape 3 sample_metrics
  = Ok (mkModel
          (Input [224; 224; 3])
          (Call (Dense (mkDense 3 (Some softmax) None Omitted None (Some "output")))
             (Call LeakyReLU
                (Call (Dense (mkDense 128 None (Some he_uniform) Omitted
                                      (Some (l2 0x1p-13%float)) None))
                   (Call (Dropout 0.25%float)
                      (Call Flatten (Input [224; 224; 3]))))))
          (Some (mkCompile categorical_crossentropy (Adam 0x1p-10%float)
                           ["accuracy"; "auc"]))).
Proof. split; reflexivity. Qed.

Lemma multiclass_first_kernel_is_one_witness :
  exists m c rest,
    dcnn_multiclass string size_literal sample_config sample_shape 3 sample_metrics = Ok m /\
    0 < CONV_BLOCKS sample_config /\
    FILTER_EXP_BASE sample_config = 2 /\
    KERNEL_SIZE sample_config = "(3,3)" /\
    seq_layers m = Conv2D c :: rest /\
    conv_kernel_size c = PyInt 1.
Proof.
  assert (Hn : 0 < CONV_BLOCKS sample_config) by (simpl; lia).
  destruct (multiclass_first_kernel_is_one string size_literal sample_config sample_shape 3
              sample_metrics _ eq_refl Hn) as (c & rest & Hl & Hk).
  eexists. exists c, rest.
  split; [reflexivity|]. split; [exact Hn|]. split; [reflexivity|]. split; [reflexivity|].
  split; [exact Hl|exact Hk].
Defined.

(** * Further properties of the builders *)

(** ** Lists *)

Lemma flat_map_stage_layers_length (stages : list ConvStage) :
  List.length (flat_map stage_layers stages) = (4 * List.length stages)%nat.
Proof.
  induction stages as [|s stages IH]; [reflexivity|].
  simpl. rewrite IH. lia.
Qed.

Lemma range_succ_cons (k : nat) :
  range (Z.of_nat (S k)) = 0 :: map Z.of_nat (seq 1 k).
Proof. unfold range. rewrite Nat2Z.id. reflexivity. Qed.

Lemma firstn_seq_le (k len a : nat) :
  (k <= len)%nat -> firstn k (seq a len) = seq a k.
Proof.
  revert len a. induction k as [|k IH]; intros len a Hk; [reflexivity|].
  destruct len as [|len]; [lia|]. simpl. f_equal. apply IH. lia.
Qed.

Lemma range_firstn (n n' : Z) :
  n <= n' -> firstn (Z.to_nat n) (range n') = range n.
Proof.
  intros Hn. unfold range. rewrite firstn_map, firstn_seq_le by lia.
  reflexivity.
Qed.

Lemma range_tail_nonzero (n i : Z) : In i (skipn 1 (range n)) -> i <> 0.
Proof.
  rewrite range_to_nat. destruct (Z.to_nat n) as [|k]; [intros []|].
  rewrite range_succ_cons. simpl. intros Hi.
  apply in_map_iff in Hi as (j & <- & Hj). apply in_seq in Hj. lia.
Qed.

(** ** Filter counts *)

Lemma block_filters_succ (init_filters filter_exp_base : Z) (i : nat) :
  block_filters init_filters filter_exp_base (Z.of_nat (S i)) =
  filter_exp_base * block_filters init_filters filter_exp_base (Z.of_nat i).
Proof.
  unfold block_filters. rewrite Nat2Z.inj_succ, Z.pow_succ_r by lia. ring.
Qed.

Lemma block_filters_pos (init_filters filter_exp_base : Z) (i : nat) :
  0 < init_filters -> 0 < filter_exp_base ->
  0 < block_filters init_filters filter_exp_base (Z.of_nat i).
Proof.
  intros Hi Hb. unfold block_filters.
  apply Z.mul_pos_pos; [exact Hi|]. apply Z.pow_pos_nonneg; lia.
Qed.

(** The filter counts of the first [k] blocks form a geometric sum. *)
Lemma filters_before_geometric (init_filters filter_exp_base : Z) (k : nat) :
  (filter_exp_base - 1) * filters_before init_filters filter_exp_base k =
  init_filters * (filter_exp_base ^ Z.of_nat k - 1).
Proof.
  induction k as [|k IH].
  - unfold filters_before. simpl. ring.
  - rewrite filters_before_S, Z.mul_add_distr_l, IH.
    unfold block_filters. rewrite Nat2Z.inj_succ, Z.pow_succ_r by lia. ring.
Qed.

(** The blocks of a shallower trunk are the first blocks of a deeper one. *)
Lemma res_blocks_trunk_firstn (init_filters filter_exp_base : Z)
    (kernel_size strides max_pool_size : pyval) (l2_lambda : float)
    (input_shape : shape) (k k' : nat) :
  (k <= k')%nat ->
  firstn k (res_blocks (resnet_trunk init_filters filter_exp_base kernel_size strides
                                     max_pool_size l2_lambda input_shape k')) =
  res_blocks (resnet_trunk init_filters filter_exp_base kernel_size strides
                           max_pool_size l2_lambda input_shape k).
Proof.
  induction k' as [|k' IH]; intros Hk.
  - replace k with O by lia. reflexivity.
  - destruct (Nat.eq_dec k (S k')) as [->|Hne].
    + rewrite <- (res_blocks_trunk_length init_filters filter_exp_base kernel_size strides
                    max_pool_size l2_lambda input_shape (S k')) at 1.
      apply firstn_all.
    + rewrite resnet_trunk_S, res_blocks_block, firstn_app, res_blocks_trunk_length.
      replace (k - k')%nat with O by lia. simpl firstn at 2. rewrite app_nil_r.
      apply IH. lia.
Qed.

Section StageLists.

Variable metric : Type.
Variable eval : string -> option pyval.

(** The stages and the head of a model of [dcnn_binary], with the three
    evaluated sizes. *)
Lemma binary_split (cfg : ModelConfig) (input_shape : shape) (metrics : list metric)
    (output_bias : option pyval) (m : Sequential metric) :
  dcnn_binary metric eval cfg input_shape metrics output_bias = Ok m ->
  exists ks mp st,
    eval (KERNEL_SIZE cfg) = Some ks /\
    eval (MAXPOOL_SIZE cfg) = Some mp /\
    eval (STRIDES cfg) = Some st /\
    split_stages (seq_layers m) =
      (map (fun i =>
              mkStage (mkConv2D (block_filters (INIT_FILTERS cfg) (FILTER_EXP_BASE cfg) i)
                                ks st same he_uniform (l2 (L2_LAMBDA cfg))
                                (if i =? 0 then Some input_shape else None))
                      mp same)
           (range (CONV_BLOCKS cfg)),
       [Flatten; Dropout (DROPOUT cfg);
        Dense (mkDense (NODES_DENSE0 cfg) None (Some he_uniform) Omitted
                       (Some (l2 (L2_LAMBDA cfg))) None);
        LeakyReLU;
        Dense (mkDense 1 (Some sigmoid) None
                       (Passed match output_bias with
                               | Some b => Some (Constant b)
                               | None => None
                               end)
                       None (Some "output"))]).
Proof.
  intros H. apply dcnn_binary_ok in H as (ks & mp & st & Hks & Hmp & Hst & ->).
  exists ks, mp, st. repeat (split; [assumption|]).
  simpl seq_layers. apply split_stages_app. reflexivity.
Qed.

(** The stages and the head of a model of [dcnn_multiclass]. *)
Lemma multiclass_split (cfg : ModelConfig) (input_shape : shape) (num_classes : Z)
    (metrics : list metric) (m : Sequential metric) :
  dcnn_multiclass metric eval cfg input_shape num_classes metrics = Ok m ->
  exists ks mp st,
    eval (KERNEL_SIZE cfg) = Some ks /\
    eval (MAXPOOL_SIZE cfg) = Some mp /\
    eval (STRIDES cfg) = Some st /\
    split_stages (seq_layers m) =
      (map (fun i =>
              mkStage (mkConv2D (block_filters (INIT_FILTERS cfg) (FILTER_EXP_BASE cfg) i)
                                (if i =? 0 then PyInt (FILTER_EXP_BASE cfg ^ i) else ks)
                                st same he_uniform (l2 (L2_LAMBDA cfg))
                                (if i =? 0 then Some input_shape else None))
                      mp same)
           (range (CONV_BLOCKS cfg)),
       [Flatten; Dropout (DROPOUT cfg);
        Dense (mkDense (NODES_DENSE0 cfg) None (Some he_uniform) Omitted
                       (Some (l2 (L2_LAMBDA cfg))) None);
        Dropout (DROPOUT cfg);
        LeakyReLU;
        Dense (mkDense num_classes (Some softmax) None Omitted None (Some "output"))]).
Proof.
  intros H. apply dcnn_multiclass_ok in H as (ks & mp & st & Hks & Hmp & Hst & ->).
  exists ks, mp, st. repeat (split; [assumption|]).
  simpl seq_layers. apply split_stages_app. reflexivity.
Qed.

(** The residual block at position [i] of a model of
    [dcnn_multiclass_resnet], with the three evaluated sizes. *)
Lemma resnet_block_at (cfg : ModelConfig) (input_shape : shape) (num_classes : Z)
    (metrics : list metric) (m : Model metric) (trunk : KTensor) (i : nat) (b : ResBlock) :
  dcnn_multiclass_resnet metric eval cfg input_shape num_classes metrics = Ok m ->
  head_input (model_outputs m) = Some trunk ->
  nth_error (res_blocks trunk) i = Some b ->
  exists ks mp st,
    eval (KERNEL_SIZE cfg) = Some ks /\
    eval (MAXPOOL_SIZE cfg) = Some mp /\
    eval (STRIDES cfg) = Some st /\
    (i < Z.to_nat (CONV_BLOCKS cfg))%nat /\
    res_conv1 b = mkConv2D (block_filters (INIT_FILTERS cfg) (FILTER_EXP_BASE cfg) (Z.of_nat i))
                           ks st same he_uniform (l2 (L2_LAMBDA cfg)) None /\
    res_conv2 b = res_conv1 b /\
    res_pool_size b = mp /\
    res_pool_padding b = same.
Proof.
  intros H Ht Hb.
  apply dcnn_multiclass_resnet_ok in H as (ks & mp & st & Hks & Hmp & Hst & ->).
  simpl in Ht. injection Ht as <-.
  assert (Hi : (i < Z.to_nat (CONV_BLOCKS cfg))%nat).
  { rewrite <- (res_blocks_trunk_length (INIT_FILTERS cfg) (FILTER_EXP_BASE cfg) ks st mp
                  (L2_LAMBDA cfg) input_shape).
    apply nth_error_Some. congruence. }
  rewrite res_blocks_trunk_nth in Hb by exact Hi. injection Hb as <-.
  exists ks, mp, st. repeat (split; [assumption|]). now repeat split.
Qed.

End StageLists.

Section FurtherProperties.

Variable metric : Type.
Variable eval : string -> option pyval.

(** X1: the dense head.  After the stages, [dcnn_binary] adds [Flatten],
    [Dropout(DROPOUT)], a [Dense] layer of [NODES_DENSE0] units with
    [he_uniform] weights, an L2 activity regulariser and no activation of its
    own, [LeakyReLU], and the output layer; [dcnn_multiclass] adds the same
    layers with a second [Dropout(DROPOUT)] between the hidden [Dense] and the
    [LeakyReLU]; [dcnn_multiclass_resnet] applies the layers of the binary
    head, the output layer apart, to its trunk. *)
Theorem dense_heads (cfg : ModelConfig) (input_shape : shape)
    (num_classes : Z) (metrics : list metric) (output_bias : option pyval) :
  (forall m, dcnn_binary metric eval cfg input_shape metrics output_bias = Ok m ->
     exists out,
       snd (split_stages (seq_layers m)) =
       [Flatten; Dropout (DROPOUT cfg);
        Dense (mkDense (NODES_DENSE0 cfg) None (Some he_uniform) Omitted
                       (Some (l2 (L2_LAMBDA cfg))) None);
        LeakyReLU; Dense out]) /\
  (forall m, dcnn_multiclass metric eval cfg input_shape num_classes metrics = Ok m ->
     exists out,
       snd (split_stages (seq_layers m)) =
       [Flatten; Dropout (DROPOUT cfg);
        Dense (mkDense (NODES_DENSE0 cfg) None (Some he_uniform) Omitted
                       (Some (l2 (L2_LAMBDA cfg))) None);
        Dropout (DROPOUT cfg); LeakyReLU; Dense out]) /\
  (forall m, dcnn_multiclass_resnet metric eval cfg input_shape num_classes metrics = Ok m ->
     exists out trunk,
       res_root trunk = Input input_shape /\
       model_inputs m = Input input_shape /\
       model_outputs m =
       Call (Dense out)
         (Call LeakyReLU
           (Call (Dense (mkDense (NODES_DENSE0 cfg) None (Some he_uniform) Omitted
                                 (Some (l2 (L2_LAMBDA cfg))) None))
             (Call (Dropout (DROPOUT cfg)) (Call Flatten trunk))))).
Proof.
  split; [|split]; intros m H.
  - apply binary_split in H as (ks & mp & st & _ & _ & _ & ->). eexists. reflexivity.
  - apply multiclass_split in H as (ks & mp & st & _ & _ & _ & ->). eexists. reflexivity.
  - apply dcnn_multiclass_resnet_ok in H as (ks & mp & st & _ & _ & _ & ->).
    do 2 eexists. split; [apply res_root_trunk|]. split; reflexivity.
Qed.

(** X2: every convolution of every builder is built with [padding='same'],
    [kernel_initializer='he_uniform'], [activity_regularizer=l2(L2_LAMBDA)]
    and the value of the [STRIDES] expression as strides, and every pooling
    layer of every builder with the value of the [MAXPOOL_SIZE] expression
    and [padding='same']. *)
Theorem shared_layer_arguments (cfg : ModelConfig) (input_shape : shape)
    (num_classes : Z) (metrics : list metric) (output_bias : option pyval) :
  (forall m i s,
     dcnn_binary metric eval cfg input_shape metrics output_bias = Ok m ->
     nth_error (fst (split_stages (seq_layers m))) i = Some s ->
     conv_padding (stage_conv s) = same /\
     conv_kernel_initializer (stage_conv s) = he_uniform /\
     conv_activity_regularizer (stage_conv s) = l2 (L2_LAMBDA cfg) /\
     eval (STRIDES cfg) = Some (conv_strides (stage_conv s)) /\
     eval (MAXPOOL_SIZE cfg) = Some (stage_pool_size s) /\
     stage_pool_padding s = same) /\
  (forall m i s,
     dcnn_multiclass metric eval cfg input_shape num_classes metrics = Ok m ->
     nth_error (fst (split_stages (seq_layers m))) i = Some s ->
     conv_padding (stage_conv s) = same /\
     conv_kernel_initializer (stage_conv s) = he_uniform /\
     conv_activity_regularizer (stage_conv s) = l2 (L2_LAMBDA cfg) /\
     eval (STRIDES cfg) = Some (conv_strides (stage_conv s)) /\
     eval (MAXPOOL_SIZE cfg) = Some (stage_pool_size s) /\
     stage_pool_padding s = same) /\
  (forall m trunk i b,
     dcnn_multiclass_resnet metric eval cfg input_shape num_classes metrics = Ok m ->
     head_input (model_outputs m) = Some trunk ->
     nth_error (res_blocks trunk) i = Some b ->
     res_conv2 b = res_conv1 b /\
     conv_padding (res_conv1 b) = same /\
     conv_kernel_initializer (res_conv1 b) = he_uniform /\
     conv_activity_regularizer (res_conv1 b) = l2 (L2_LAMBDA cfg) /\
     eval (STRIDES cfg) = Some (conv_strides (res_conv1 b)) /\
     eval (MAXPOOL_SIZE cfg) = Some (res_pool_size b) /\
     res_pool_padding b = same).
Proof.
  split; [|split].
  - intros m i s H Hs.
    apply binary_split in H as (ks & mp & st & _ & Hmp & Hst & Hm).
    rewrite Hm in Hs. apply nth_error_map_range in Hs as [-> _]. now repeat split.
  - intros m i s H Hs.
    apply multiclass_split in H as (ks & mp & st & _ & Hmp & Hst & Hm).
    rewrite Hm in Hs. apply nth_error_map_range in Hs as [-> _]. now repeat split.
  - intros m trunk i b H Ht Hb.
    destruct (resnet_block_at metric eval _ _ _ _ _ _ _ _ H Ht Hb)
      as (ks & mp & st & _ & Hmp & Hst & _ & H1 & H2 & Hp & Hpad).
    rewrite H2, H1, Hp, Hpad. now repeat split.
Qed.

(** X3: in a model of [dcnn_binary] or [dcnn_multiclass] the convolution of
    block 0 is the only layer that is given the input shape; in a model of
    [dcnn_multiclass_resnet], with or without blocks, the shape is that of
    the model's [Input] tensor, at which the trunk is rooted, and no
    convolution is given it. *)
Theorem input_shape_placement (cfg : ModelConfig) (input_shape : shape)
    (num_classes : Z) (metrics : list metric) (output_bias : option pyval) :
  (forall m i s,
     dcnn_binary metric eval cfg input_shape metrics output_bias = Ok m ->
     nth_error (fst (split_stages (seq_layers m))) i = Some s ->
     conv_input_shape (stage_conv s) = if Nat.eqb i 0 then Some input_shape else None) /\
  (forall m i s,
     dcnn_multiclass metric eval cfg input_shape num_classes metrics = Ok m ->
     nth_error (fst (split_stages (seq_layers m))) i = Some s ->
     conv_input_shape (stage_conv s) = if Nat.eqb i 0 then Some input_shape else None) /\
  (forall m,
     dcnn_multiclass_resnet metric eval cfg input_shape num_classes metrics = Ok m ->
     model_inputs m = Input input_shape /\
     exists trunk,
       head_input (model_outputs m) = Some trunk /\
       res_root trunk = Input input_shape /\
       forall i b, nth_error (res_blocks trunk) i = Some b ->
         conv_input_shape (res_conv1 b) = None /\
         conv_input_shape (res_conv2 b) = None).
Proof.
  split; [|split].
  - intros m i s H Hs.
    apply binary_split in H as (ks & mp & st & _ & _ & _ & Hm).
    rewrite Hm in Hs. apply nth_error_map_range in Hs as [-> _]. simpl.
    destruct i; reflexivity.
  - intros m i s H Hs.
    apply multiclass_split in H as (ks & mp & st & _ & _ & _ & Hm).
    rewrite Hm in Hs. apply nth_error_map_range in Hs as [-> _]. simpl.
    destruct i; reflexivity.
  - intros m H.
    pose proof (dcnn_multiclass_resnet_ok metric eval _ _ _ _ _ H)
      as (ks & mp & st & _ & _ & _ & Em).
    split; [rewrite Em; reflexivity|].
    eexists. split; [rewrite Em; reflexivity|]. split; [apply res_root_trunk|].
    intros i b Hb.
    assert (Ht : head_input (model_outputs m) =
                 Some (resnet_trunk (INIT_FILTERS cfg) (FILTER_EXP_BASE cfg) ks st mp
                                    (L2_LAMBDA cfg) input_shape
                                    (Z.to_nat (CONV_BLOCKS cfg))))
      by (rewrite Em; reflexivity).
    destruct (resnet_block_at metric eval _ _ _ _ _ _ _ _ H Ht Hb)
      as (ks' & mp' & st' & _ & _ & _ & _ & H1 & H2 & _).
    rewrite H2, H1. split; reflexivity.
Qed.

(** X4: a model of [dcnn_binary] has [4 * n + 5] layers and a model of
    [dcnn_multiclass] has [4 * n + 6], where [n] is the block count, taken as
    zero when it is negative. *)
Theorem sequential_layer_count (cfg : ModelConfig) (input_shape : shape)
    (num_classes : Z) (metrics : list metric) (output_bias : option pyval) :
  (forall m, dcnn_binary metric eval cfg input_shape metrics output_bias = Ok m ->
     Z.of_nat (List.length (seq_layers m)) = 4 * Z.max 0 (CONV_BLOCKS cfg) + 5) /\
  (forall m, dcnn_multiclass metric eval cfg input_shape num_classes metrics = Ok m ->
     Z.of_nat (List.length (seq_layers m)) = 4 * Z.max 0 (CONV_BLOCKS cfg) + 6).
Proof.
  split; intros m H.
  - apply dcnn_binary_ok in H as (ks & mp & st & _ & _ & _ & ->).
    simpl seq_layers.
    rewrite length_app, flat_map_stage_layers_length, length_map, range_length.
    cbn [List.length]. lia.
  - apply dcnn_multiclass_ok in H as (ks & mp & st & _ & _ & _ & ->).
    simpl seq_layers.
    rewrite length_app, flat_map_stage_layers_length, length_map, range_length.
    cbn [List.length]. lia.
Qed.

(** X5: take a call of [dcnn_binary] and a call of [dcnn_multiclass] on the
    same configuration and input shape, in which the three size expressions
    evaluate to the same values.  The two models have the same number of
    stages, the same stages from block 1 on, and a block 0 that differs in
    the kernel size of its convolution only. *)
Theorem binary_multiclass_same_stages (eval' : string -> option pyval)
    (cfg : ModelConfig) (input_shape : shape)
    (num_classes : Z) (metrics metrics' : list metric) (output_bias : option pyval)
    (mb mm : Sequential metric) :
  same_sizes eval eval' cfg ->
  dcnn_binary metric eval cfg input_shape metrics output_bias = Ok mb ->
  dcnn_multiclass metric eval' cfg input_shape num_classes metrics' = Ok mm ->
  List.length (fst (split_stages (seq_layers mb))) =
  List.length (fst (split_stages (seq_layers mm))) /\
  skipn 1 (fst (split_stages (seq_layers mb))) =
  skipn 1 (fst (split_stages (seq_layers mm))) /\
  forall sb sm,
    nth_error (fst (split_stages (seq_layers mb))) 0 = Some sb ->
    nth_error (fst (split_stages (seq_layers mm))) 0 = Some sm ->
    sm = mkStage (mkConv2D (conv_filters (stage_conv sb)) (PyInt 1)
                           (conv_strides (stage_conv sb)) (conv_padding (stage_conv sb))
                           (conv_kernel_initializer (stage_conv sb))
                           (conv_activity_regularizer (stage_conv sb))
                           (conv_input_shape (stage_conv sb)))
                 (stage_pool_size sb) (stage_pool_padding sb).
Proof.
  intros (Sks & Smp & Sst) Hb Hm.
  apply binary_split in Hb as (ks & mp & st & Hks & Hmp & Hst & Eb).
  apply multiclass_split in Hm as (ks' & mp' & st' & Hks' & Hmp' & Hst' & Em).
  assert (ks' = ks) by congruence. assert (mp' = mp) by congruence.
  assert (st' = st) by congruence. subst ks' mp' st'.
  rewrite Eb, Em. simpl fst. split; [now rewrite !length_map|]. split.
  - rewrite !skipn_map. apply map_ext_in. intros i Hi.
    apply range_tail_nonzero in Hi.
    destruct (Z.eqb_spec i 0); [contradiction|reflexivity].
  - intros sb sm Hsb Hsm.
    apply nth_error_map_range in Hsb as [-> _].
    apply nth_error_map_range in Hsm as [-> _]. reflexivity.
Qed.

(** X6: in a model of [dcnn_multiclass_resnet] built on an input with [c]
    channels, the tensor that enters [Flatten] has [c] channels plus the
    filter counts of all blocks, a geometric sum: multiplied by
    [FILTER_EXP_BASE - 1] it is [INIT_FILTERS * (FILTER_EXP_BASE ** n - 1)]. *)
Theorem resnet_head_channels (cfg : ModelConfig) (input_shape : shape)
    (num_classes : Z) (metrics : list metric) (m : Model metric) (c : Z) :
  dcnn_multiclass_resnet metric eval cfg input_shape num_classes metrics = Ok m ->
  last_axis input_shape = Some c ->
  exists trunk,
    head_input (model_outputs m) = Some trunk /\
    channels trunk =
      Some (c + filters_before (INIT_FILTERS cfg) (FILTER_EXP_BASE cfg)
                               (Z.to_nat (CONV_BLOCKS cfg))) /\
    (FILTER_EXP_BASE cfg - 1)
    * filters_before (INIT_FILTERS cfg) (FILTER_EXP_BASE cfg) (Z.to_nat (CONV_BLOCKS cfg)) =
    INIT_FILTERS cfg * (FILTER_EXP_BASE cfg ^ Z.max 0 (CONV_BLOCKS cfg) - 1).
Proof.
  intros H Hc. apply resnet_trunk_of_model in H as (ks & mp & st & _ & Ht).
  eexists. split; [exact Ht|]. split; [now apply channels_trunk|].
  rewrite filters_before_geometric. do 3 f_equal. lia.
Qed.

(** X7: take two calls of [dcnn_binary] that differ in the output bias only
    and in which the three size expressions evaluate to the same values (as
    they do when they do not read the bias).  The bias reaches the output
    layer and nothing else: the two models have the same name, the same
    compile arguments and the same layers up to the output layer, whose
    units, activation and name are the same too. *)
Theorem output_bias_reaches_output_layer_only (eval' : string -> option pyval)
    (cfg : ModelConfig) (input_shape : shape)
    (metrics : list metric) (bias1 bias2 : option pyval) (m1 m2 : Sequential metric) :
  same_sizes eval eval' cfg ->
  dcnn_binary metric eval cfg input_shape metrics bias1 = Ok m1 ->
  dcnn_binary metric eval' cfg input_shape metrics bias2 = Ok m2 ->
  seq_name m1 = seq_name m2 /\
  seq_compiled m1 = seq_compiled m2 /\
  removelast (seq_layers m1) = removelast (seq_layers m2) /\
  exists d1 d2,
    last_layer (seq_layers m1) = Some (Dense d1) /\
    last_layer (seq_layers m2) = Some (Dense d2) /\
    dense_units d1 = dense_units d2 /\
    dense_activation d1 = dense_activation d2 /\
    dense_kernel_initializer d1 = dense_kernel_initializer d2 /\
    dense_activity_regularizer d1 = dense_activity_regularizer d2 /\
    dense_name d1 = dense_name d2.
Proof.
  intros (Sks & Smp & Sst) H1 H2.
  apply dcnn_binary_ok in H1 as (ks & mp & st & Hks & Hmp & Hst & ->).
  apply dcnn_binary_ok in H2 as (ks' & mp' & st' & Hks' & Hmp' & Hst' & ->).
  assert (ks' = ks) by congruence. assert (mp' = mp) by congruence.
  assert (st' = st) by congruence. subst ks' mp' st'.
  split; [reflexivity|]. split; [reflexivity|]. simpl seq_layers. split.
  - rewrite !removelast_app by discriminate. reflexivity.
  - do 2 eexists. rewrite !last_layer_app_head by discriminate.
    split; [reflexivity|]. split; [reflexivity|]. now repeat split.
Qed.

(** X8: take two calls of a multiclass builder that differ in the number of
    classes only and in which the three size expressions evaluate to the same
    values (as they do when they do not read it).  The number of classes
    sets the units of the output layer and nothing else: the models of
    [dcnn_multiclass] have the same layers up to the output layer, the
    models of [dcnn_multiclass_resnet] apply their output layers to the same
    tensor, and the compile arguments are the same. *)
Theorem num_classes_sets_output_units_only (eval' : string -> option pyval)
    (cfg : ModelConfig) (input_shape : shape)
    (metrics : list metric) (n1 n2 : Z) :
  same_sizes eval eval' cfg ->
  (forall m1 m2,
     dcnn_multiclass metric eval cfg input_shape n1 metrics = Ok m1 ->
     dcnn_multiclass metric eval' cfg input_shape n2 metrics = Ok m2 ->
     seq_compiled m1 = seq_compiled m2 /\
     removelast (seq_layers m1) = removelast (seq_layers m2) /\
     last_layer (seq_layers m1) =
       Some (Dense (mkDense n1 (Some softmax) None Omitted None (Some "output"))) /\
     last_layer (seq_layers m2) =
       Some (Dense (mkDense n2 (Some softmax) None Omitted None (Some "output")))) /\
  (forall m1 m2,
     dcnn_multiclass_resnet metric eval cfg input_shape n1 metrics = Ok m1 ->
     dcnn_multiclass_resnet metric eval' cfg input_shape n2 metrics = Ok m2 ->
     model_compiled m1 = model_compiled m2 /\
     model_inputs m1 = model_inputs m2 /\
     exists x,
       model_outputs m1 =
         Call (Dense (mkDense n1 (Some softmax) None Omitted None (Some "output"))) x /\
       model_outputs m2 =
         Call (Dense (mkDense n2 (Some softmax) None Omitted None (Some "output"))) x).
Proof.
  intros (Sks & Smp & Sst). split; intros m1 m2 H1 H2.
  - apply dcnn_multiclass_ok in H1 as (ks & mp & st & Hks & Hmp & Hst & ->).
    apply dcnn_multiclass_ok in H2 as (ks' & mp' & st' & Hks' & Hmp' & Hst' & ->).
    assert (ks' = ks) by congruence. assert (mp' = mp) by congruence.
    assert (st' = st) by congruence. subst ks' mp' st'.
    split; [reflexivity|]. simpl seq_layers.
    rewrite !removelast_app by discriminate.
    rewrite !last_layer_app_head by discriminate. now repeat split.
  - apply dcnn_multiclass_resnet_ok in H1 as (ks & mp & st & Hks & Hmp & Hst & ->).
    apply dcnn_multiclass_resnet_ok in H2 as (ks' & mp' & st' & Hks' & Hmp' & Hst' & ->).
    assert (ks' = ks) by congruence. assert (mp' = mp) by congruence.
    assert (st' = st) by congruence. subst ks' mp' st'.
    split; [reflexivity|]. split; [reflexivity|]. eexists. split; reflexivity.
Qed.

(** X9: raising the block count only appends.  Take two calls with block
    counts [n <= n'], the configuration otherwise the same, in which the three
    size expressions evaluate to the same values (as they do when they do not
    read the block count).  The stages of the model with [n] blocks are the
    first stages of the model with [n'] blocks and the heads are the same;
    the residual blocks of the shallower model are the first residual blocks
    of the deeper one. *)
Theorem deeper_model_extends_shallower (eval' : string -> option pyval)
    (cfg : ModelConfig) (input_shape : shape)
    (num_classes : Z) (metrics : list metric) (output_bias : option pyval) (n n' : Z) :
  n <= n' ->
  same_sizes eval eval' cfg ->
  (forall m m',
     dcnn_binary metric eval (with_conv_blocks cfg n) input_shape metrics output_bias
       = Ok m ->
     dcnn_binary metric eval' (with_conv_blocks cfg n') input_shape metrics output_bias
       = Ok m' ->
     fst (split_stages (seq_layers m)) =
       firstn (Z.to_nat n) (fst (split_stages (seq_layers m'))) /\
     snd (split_stages (seq_layers m)) = snd (split_stages (seq_layers m'))) /\
  (forall m m',
     dcnn_multiclass metric eval (with_conv_blocks cfg n) input_shape num_classes metrics
       = Ok m ->
     dcnn_multiclass metric eval' (with_conv_blocks cfg n') input_shape num_classes metrics
       = Ok m' ->
     fst (split_stages (seq_layers m)) =
       firstn (Z.to_nat n) (fst (split_stages (seq_layers m'))) /\
     snd (split_stages (seq_layers m)) = snd (split_stages (seq_layers m'))) /\
  (forall m m' trunk trunk',
     dcnn_multiclass_resnet metric eval (with_conv_blocks cfg n) input_shape num_classes
                            metrics = Ok m ->
     dcnn_multiclass_resnet metric eval' (with_conv_blocks cfg n') input_shape num_classes
                            metrics = Ok m' ->
     head_input (model_outputs m) = Some trunk ->
     head_input (model_outputs m') = Some trunk' ->
     res_blocks trunk = firstn (Z.to_nat n) (res_blocks trunk')).
Proof.
  intros Hn (Sks & Smp & Sst). split; [|split].
  - intros m m' H H'.
    apply binary_split in H as (ks & mp & st & Hks & Hmp & Hst & E).
    apply binary_split in H' as (ks' & mp' & st' & Hks' & Hmp' & Hst' & E').
    simpl in *.
    assert (ks' = ks) by congruence. assert (mp' = mp) by congruence.
    assert (st' = st) by congruence. subst ks' mp' st'.
    rewrite E, E'. simpl. split; [|reflexivity].
    now rewrite firstn_map, range_firstn.
  - intros m m' H H'.
    apply multiclass_split in H as (ks & mp & st & Hks & Hmp & Hst & E).
    apply multiclass_split in H' as (ks' & mp' & st' & Hks' & Hmp' & Hst' & E').
    simpl in *.
    assert (ks' = ks) by congruence. assert (mp' = mp) by congruence.
    assert (st' = st) by congruence. subst ks' mp' st'.
    rewrite E, E'. simpl. split; [|reflexivity].
    now rewrite firstn_map, range_firstn.
  - intros m m' trunk trunk' H H' Ht Ht'.
    apply dcnn_multiclass_resnet_ok in H as (ks & mp & st & Hks & Hmp & Hst & ->).
    apply dcnn_multiclass_resnet_ok in H' as (ks' & mp' & st' & Hks' & Hmp' & Hst' & ->).
    simpl in *.
    assert (ks' = ks) by congruence. assert (mp' = mp) by congruence.
    assert (st' = st) by congruence. subst ks' mp' st'.
    injection Ht as <-. injection Ht' as <-.
    symmetry. apply res_blocks_trunk_firstn. lia.
Qed.

(** X10: from one block to the next the filter count is multiplied by
    [FILTER_EXP_BASE], in all three builders; and when [INIT_FILTERS] and
    [FILTER_EXP_BASE] are positive, every convolution has a positive number
    of filters. *)
Theorem filter_growth (cfg : ModelConfig) (input_shape : shape)
    (num_classes : Z) (metrics : list metric) (output_bias : option pyval) :
  (forall m i s s',
     dcnn_binary metric eval cfg input_shape metrics output_bias = Ok m ->
     nth_error (fst (split_stages (seq_layers m))) i = Some s ->
     nth_error (fst (split_stages (seq_layers m))) (S i) = Some s' ->
     conv_filters (stage_conv s') = FILTER_EXP_BASE cfg * conv_filters (stage_conv s)) /\
  (forall m i s s',
     dcnn_multiclass metric eval cfg input_shape num_classes metrics = Ok m ->
     nth_error (fst (split_stages (seq_layers m))) i = Some s ->
     nth_error (fst (split_stages (seq_layers m))) (S i) = Some s' ->
     conv_filters (stage_conv s') = FILTER_EXP_BASE cfg * conv_filters (stage_conv s)) /\
  (forall m trunk i b b',
     dcnn_multiclass_resnet metric eval cfg input_shape num_classes metrics = Ok m ->
     head_input (model_outputs m) = Some trunk ->
     nth_error (res_blocks trunk) i = Some b ->
     nth_error (res_blocks trunk) (S i) = Some b' ->
     conv_filters (res_conv1 b') = FILTER_EXP_BASE cfg * conv_filters (res_conv1 b) /\
     conv_filters (res_conv2 b') = FILTER_EXP_BASE cfg * conv_filters (res_conv2 b)) /\
  (0 < INIT_FILTERS cfg -> 0 < FILTER_EXP_BASE cfg ->
   (forall m i s,
      dcnn_binary metric eval cfg input_shape metrics output_bias = Ok m ->
      nth_error (fst (split_stages (seq_layers m))) i = Some s ->
      0 < conv_filters (stage_conv s)) /\
   (forall m i s,
      dcnn_multiclass metric eval cfg input_shape num_classes metrics = Ok m ->
      nth_error (fst (split_stages (seq_layers m))) i = Some s ->
      0 < conv_filters (stage_conv s)) /\
   (forall m trunk i b,
      dcnn_multiclass_resnet metric eval cfg input_shape num_classes metrics = Ok m ->
      head_input (model_outputs m) = Some trunk ->
      nth_error (res_blocks trunk) i = Some b ->
      0 < conv_filters (res_conv1 b) /\ 0 < conv_filters (res_conv2 b))).
Proof.
  split; [|split; [|split]].
  - intros m i s s' H Hs Hs'.
    apply binary_split in H as (ks & mp & st & _ & _ & _ & E).
    rewrite E in Hs, Hs'.
    apply nth_error_map_range in Hs as [-> _].
    apply nth_error_map_range in Hs' as [-> _]. apply block_filters_succ.
  - intros m i s s' H Hs Hs'.
    apply multiclass_split in H as (ks & mp & st & _ & _ & _ & E).
    rewrite E in Hs, Hs'.
    apply nth_error_map_range in Hs as [-> _].
    apply nth_error_map_range in Hs' as [-> _]. apply block_filters_succ.
  - intros m trunk i b b' H Ht Hb Hb'.
    destruct (resnet_block_at metric eval _ _ _ _ _ _ _ _ H Ht Hb)
      as (ks & mp & st & Hks & _ & Hst & _ & H1 & H2 & _).
    destruct (resnet_block_at metric eval _ _ _ _ _ _ _ _ H Ht Hb')
      as (ks' & mp' & st' & Hks' & _ & Hst' & _ & H1' & H2' & _).
    rewrite H2, H2', H1, H1'. simpl. split; apply block_filters_succ.
  - intros Hinit Hbase. split; [|split].
    + intros m i s H Hs.
      apply binary_split in H as (ks & mp & st & _ & _ & _ & E).
      rewrite E in Hs. apply nth_error_map_range in Hs as [-> _].
      now apply block_filters_pos.
    + intros m i s H Hs.
      apply multiclass_split in H as (ks & mp & st & _ & _ & _ & E).
      rewrite E in Hs. apply nth_error_map_range in Hs as [-> _].
      now apply block_filters_pos.
    + intros m trunk i b H Ht Hb.
      destruct (resnet_block_at metric eval _ _ _ _ _ _ _ _ H Ht Hb)
        as (ks & mp & st & _ & _ & _ & _ & H1 & H2 & _).
      rewrite H2, H1. simpl. split; now apply block_filters_pos.
Qed.


End FurtherProperties.

(** * The further properties on the sample configuration *)

Lemma dense_heads_witness :
  (exists m out,
     dcnn_multiclass string size_literal sample_config sample_shape 3 sample_metrics = Ok m /\
     snd (split_stages (seq_layers m)) =
     [Flatten; Dropout 0.25%float;
      Dense (mkDense 128 None (Some he_uniform) Omitted (Some (l2 0x1p-13%float)) None);
      Dropout 0.25%float; LeakyReLU; Dense out]) /\
  (exists m out,
     dcnn_binary string size_literal sample_config sample_shape sample_metrics None = Ok m /\
     snd (split_stages (seq_layers m)) =
     [Flatten; Dropout 0.25%float;
      Dense (mkDense 128 None (Some he_uniform) Omitted (Some (l2 0x1p-13%float)) None);
      LeakyReLU; Dense out]).
Proof.
  destruct (dense_heads string size_literal sample_config sample_shape 3 sample_metrics None)
    as (Hb & Hm & _).
  split.
  - destruct (Hm _ eq_refl) as (out & H). eexists. exists out. split; [reflexivity|exact H].
  - destruct (Hb _ eq_refl) as (out & H). eexists. exists out. split; [reflexivity|exact H].
Defined.

Lemma shared_layer_arguments_witness :
  (exists m s,
     dcnn_binary string size_literal sample_config sample_shape sample_metrics None = Ok m /\
     nth_error (fst (split_stages (seq_layers m))) 2 = Some s /\
     conv_padding (stage_conv s) = same /\
     conv_kernel_initializer (stage_conv s) = he_uniform /\
     conv_activity_regularizer (stage_conv s) = l2 0x1p-13%float /\
     size_literal "(1,1)" = Some (conv_strides (stage_conv s)) /\
     size_literal "(2,2)" = Some (stage_pool_size s) /\
     stage_pool_padding s = same) /\
  (exists m trunk b,
     dcnn_multiclass_resnet string size_literal sample_config sample_shape 3 sample_metrics
       = Ok m /\
     head_input (model_outputs m) = Some trunk /\
     nth_error (res_blocks trunk) 1 = Some b /\
     conv_padding (res_conv2 b) = same /\
     size_literal "(2,2)" = Some (res_pool_size b) /\
     res_pool_padding b = same).
Proof.
  destruct (shared_layer_arguments string size_literal sample_config sample_shape 3
              sample_metrics None) as (Hb & _ & Hr).
  split.
  - do 2 eexists. split; [reflexivity|]. split; [reflexivity|].
    exact (Hb _ 2%nat _ eq_refl eq_refl).
  - do 3 eexists. split; [reflexivity|]. split; [reflexivity|]. split; [reflexivity|].
    destruct (Hr _ _ 1%nat _ eq_refl eq_refl eq_refl)
      as (H2 & Hpad & _ & _ & _ & Hp & Hpp).
    split; [rewrite H2; exact Hpad|]. split; [exact Hp|exact Hpp].
Defined.

Lemma input_shape_placement_witness :
  (exists m s0 s1,
     dcnn_multiclass string size_literal sample_config sample_shape 3 sample_metrics = Ok m /\
     nth_error (fst (split_stages (seq_layers m))) 0 = Some s0 /\
     nth_error (fst (split_stages (seq_layers m))) 1 = Some s1 /\
     conv_input_shape (stage_conv s0) = Some [224; 224; 3] /\
     conv_input_shape (stage_conv s1) = None) /\
  (exists m,
     dcnn_multiclass_resnet string size_literal zero_block_config sample_shape 3
                            sample_metrics = Ok m /\
     model_inputs m = Input [224; 224; 3]) /\
  (exists m,
     dcnn_multiclass_resnet string size_literal sample_config sample_shape 3 sample_metrics
       = Ok m /\
     model_inputs m = Input [224; 224; 3]).
Proof.
  split; [|split].
  - destruct (input_shape_placement string size_literal sample_config sample_shape 3
                sample_metrics None) as (_ & Hm & _).
    do 3 eexists. split; [reflexivity|]. split; [reflexivity|]. split; [reflexivity|].
    split.
    + exact (Hm _ 0%nat _ eq_refl eq_refl).
    + exact (Hm _ 1%nat _ eq_refl eq_refl).
  - eexists. split; [reflexivity|].
    exact (proj1 (proj2 (proj2 (input_shape_placement string size_literal zero_block_config
                                  sample_shape 3 sample_metrics None)) _ eq_refl)).
  - eexists. split; [reflexivity|].
    exact (proj1 (proj2 (proj2 (input_shape_placement string size_literal sample_config
                                  sample_shape 3 sample_metrics None)) _ eq_refl)).
Defined.

Lemma sequential_layer_count_witness :
  (exists m,
     dcnn_binary string size_literal sample_config sample_shape sample_metrics None = Ok m /\
     Z.of_nat (List.length (seq_layers m)) = 17) /\
  (exists m,
     dcnn_multiclass string size_literal sample_config sample_shape 3 sample_metrics = Ok m /\
     Z.of_nat (List.length (seq_layers m)) = 18).
Proof.
  destruct (sequential_layer_count string size_literal sample_config sample_shape 3
              sample_metrics None) as (Hb & Hm).
  split; eexists; (split; [reflexivity|]).
  - exact (Hb _ eq_refl).
  - exact (Hm _ eq_refl).
Defined.

Lemma binary_multiclass_same_stages_witness :
  exists mb mm sb sm,
    dcnn_binary string size_literal sample_config sample_shape sample_metrics None = Ok mb /\
    dcnn_multiclass string size_literal sample_config sample_shape 3 sample_metrics = Ok mm /\
    nth_error (fst (split_stages (seq_layers mb))) 0 = Some sb /\
    nth_error (fst (split_stages (seq_layers mm))) 0 = Some sm /\
    skipn 1 (fst (split_stages (seq_layers mb))) =
    skipn 1 (fst (split_stages (seq_layers mm))) /\
    conv_kernel_size (stage_conv sb) = PyTuple [PyInt 3; PyInt 3] /\
    conv_kernel_size (stage_conv sm) = PyInt 1 /\
    conv_filters (stage_conv sm) = conv_filters (stage_conv sb).
Proof.
  assert (Hs : same_sizes size_literal size_literal sample_config) by (repeat split).
  destruct (binary_multiclass_same_stages string size_literal size_literal sample_config
              sample_shape 3 sample_metrics sample_metrics None _ _ Hs eq_refl eq_refl)
    as (_ & Htail & H0).
  pose proof (H0 _ _ eq_refl eq_refl) as Hsm.
  do 4 eexists. split; [reflexivity|]. split; [reflexivity|].
  split; [reflexivity|]. split; [reflexivity|]. split; [exact Htail|].
  split; [reflexivity|]. split; [exact (f_equal (fun s => conv_kernel_size (stage_conv s)) Hsm)|].
  exact (f_equal (fun s => conv_filters (stage_conv s)) Hsm).
Defined.

Lemma resnet_head_channels_witness :
  exists m trunk,
    dcnn_multiclass_resnet string size_literal sample_config sample_shape 3 sample_metrics
      = Ok m /\
    last_axis sample_shape = Some 3 /\
    head_input (model_outputs m) = Some trunk /\
    channels trunk = Some (3 + (16 + 32 + 64)) /\
    (2 - 1) * filters_before 16 2 3 = 16 * (2 ^ 3 - 1).
Proof.
  destruct (resnet_head_channels string size_literal sample_config sample_shape 3
              sample_metrics _ 3 eq_refl eq_refl) as (trunk & Ht & Hc & Hg).
  eexists. exists trunk. split; [reflexivity|]. split; [reflexivity|].
  split; [exact Ht|]. split; [exact Hc|exact Hg].
Defined.

Lemma output_bias_reaches_output_layer_only_witness :
  exists m1 m2,
    dcnn_binary string size_literal sample_config sample_shape sample_metrics
                (Some (PyFloat 0.5%float)) = Ok m1 /\
    dcnn_binary string size_literal sample_config sample_shape sample_metrics None = Ok m2 /\
    seq_compiled m1 = seq_compiled m2 /\
    removelast (seq_layers m1) = removelast (seq_layers m2) /\
    last_layer (seq_layers m1) <> last_layer (seq_layers m2).
Proof.
  assert (Hs : same_sizes size_literal size_literal sample_config) by (repeat split).
  destruct (output_bias_reaches_output_layer_only string size_literal size_literal
              sample_config sample_shape sample_metrics (Some (PyFloat 0.5%float)) None
              _ _ Hs eq_refl eq_refl)
    as (_ & Hc & Hl & _).
  do 2 eexists. split; [reflexivity|]. split; [reflexivity|].
  split; [exact Hc|]. split; [exact Hl|]. discriminate.
Defined.

Lemma num_classes_sets_output_units_only_witness :
  (exists m1 m2,
     dcnn_multiclass string size_literal sample_config sample_shape 3 sample_metrics
       = Ok m1 /\
     dcnn_multiclass string size_literal sample_config sample_shape 5 sample_metrics
       = Ok m2 /\
     removelast (seq_layers m1) = removelast (seq_layers m2)) /\
  (exists m1 m2 x,
     dcnn_multiclass_resnet string size_literal sample_config sample_shape 3 sample_metrics
       = Ok m1 /\
     dcnn_multiclass_resnet string size_literal sample_config sample_shape 5 sample_metrics
       = Ok m2 /\
     model_outputs m1 =
       Call (Dense (mkDense 3 (Some softmax) None Omitted None (Some "output"))) x /\
     model_outputs m2 =
       Call (Dense (mkDense 5 (Some softmax) None Omitted None (Some "output"))) x).
Proof.
  assert (Hsz : same_sizes size_literal size_literal sample_config) by (repeat split).
  destruct (num_classes_sets_output_units_only string size_literal size_literal
              sample_config sample_shape sample_metrics 3 5 Hsz) as (Hs & Hr).
  split.
  - destruct (Hs _ _ eq_refl eq_refl) as (_ & Hl & _).
    do 2 eexists. split; [reflexivity|]. split; [reflexivity|exact Hl].
  - destruct (Hr _ _ eq_refl eq_refl) as (_ & _ & x & H1 & H2).
    do 2 eexists. exists x. split; [reflexivity|]. split; [reflexivity|].
    split; [exact H1|exact H2].
Defined.

Lemma deeper_model_extends_shallower_witness :
  2 <= 3 /\
  (exists m m',
     dcnn_binary string size_literal (with_conv_blocks sample_config 2) sample_shape
                 sample_metrics None = Ok m /\
     dcnn_binary string size_literal (with_conv_blocks sample_config 3) sample_shape
                 sample_metrics None = Ok m' /\
     fst (split_stages (seq_layers m)) = firstn 2 (fst (split_stages (seq_layers m'))) /\
     snd (split_stages (seq_layers m)) = snd (split_stages (seq_layers m'))) /\
  (exists m m' trunk trunk',
     dcnn_multiclass_resnet string size_literal (with_conv_blocks sample_config 2)
                            sample_shape 3 sample_metrics = Ok m /\
     dcnn_multiclass_resnet string size_literal (with_conv_blocks sample_config 3)
                            sample_shape 3 sample_metrics = Ok m' /\
     head_input (model_outputs m) = Some trunk /\
     head_input (model_outputs m') = Some trunk' /\
     res_blocks trunk = firstn 2 (res_blocks trunk')).
Proof.
  assert (Hn : 2 <= 3) by lia.
  split; [exact Hn|].
  assert (Hs : same_sizes size_literal size_literal sample_config) by (repeat split).
  destruct (deeper_model_extends_shallower string size_literal size_literal sample_config
              sample_shape 3 sample_metrics None 2 3 Hn Hs) as (Hb & _ & Hr).
  split.
  - destruct (Hb _ _ eq_refl eq_refl) as (Hfst & Hsnd).
    do 2 eexists. split; [reflexivity|]. split; [reflexivity|].
    split; [exact Hfst|exact Hsnd].
  - do 4 eexists. split; [reflexivity|]. split; [reflexivity|].
    split; [reflexivity|]. split; [reflexivity|].
    exact (Hr _ _ _ _ eq_refl eq_refl eq_refl eq_refl).
Defined.

Lemma filter_growth_witness :
  0 < INIT_FILTERS sample_config /\ 0 < FILTER_EXP_BASE sample_config /\
  exists m s1 s2,
    dcnn_binary string size_literal sample_config sample_shape sample_metrics None = Ok m /\
    nth_error (fst (split_stages (seq_layers m))) 1 = Some s1 /\
    nth_error (fst (split_stages (seq_layers m))) 2 = Some s2 /\
    conv_filters (stage_conv s2) = 2 * conv_filters (stage_conv s1) /\
    0 < conv_filters (stage_conv s1).
Proof.
  assert (Hi : 0 < INIT_FILTERS sample_config) by (simpl; lia).
  assert (Hb : 0 < FILTER_EXP_BASE sample_config) by (simpl; lia).
  destruct (filter_growth string size_literal sample_config sample_shape 3 sample_metrics
              None) as (Hratio & _ & _ & Hpos).
  destruct (Hpos Hi Hb) as (Hposb & _ & _).
  split; [exact Hi|]. split; [exact Hb|].
  do 3 eexists. split; [reflexivity|]. split; [reflexivity|]. split; [reflexivity|].
  split.
  - exact (Hratio _ 1%nat _ _ eq_refl eq_refl eq_refl).
  - exact (Hposb _ 1%nat _ eq_refl eq_refl).
Defined.

